(** * URL shortener backend: controller, model and helpers

    A shallow embedding of the Express/Mongoose URL-shortening service
    (controllers/urlController.js, models/urlModel.js, utils/helpers.js)
    and the properties of its shortening, redirection and admin paths.

    Modelling conventions
    - A JavaScript string is the list of its UTF-16 code units ([list N]).
    - The MongoDB collection is the list of its documents in natural
      (insertion) order; [findOne] returns the first match in that order,
      and the unique index on [shortCode] rejects a second document with a
      code already present.
    - Each request runs to completion on its own: a handler is a function
      from the store to a response and the next store.
    - What the process cannot decide by itself is an input of the request
      ([Env]): the clock, Node's WHATWG [URL] parser behind [isValidUrl],
      and the successive results of the random code generator. *)

From Stdlib Require Import ZArith NArith Lia String Ascii.
From stdpp Require Import base decidable option list numbers sorting.

(** ** JavaScript strings and values *)

Abbreviation jsstring := (list N).

Definition str (s : string) : jsstring :=
  map N_of_ascii (list_ascii_of_string s).

(** WhiteSpace and LineTerminator code points, the set removed by
    [String.prototype.trim]. *)
Definition isWhiteSpace (c : N) : bool :=
  ((9 <=? c) && (c <=? 13) || (c =? 32) || (c =? 160) || (c =? 0x1680)
   || (0x2000 <=? c) && (c <=? 0x200A) || (c =? 0x2028) || (c =? 0x2029)
   || (c =? 0x202F) || (c =? 0x205F) || (c =? 0x3000) || (c =? 0xFEFF))%N.

(** The characters that [.] of a regular expression does not match. *)
Definition isLineTerminator (c : N) : bool :=
  ((c =? 10) || (c =? 13) || (c =? 0x2028) || (c =? 0x2029))%N.

Fixpoint trimStart (s : jsstring) : jsstring :=
  match s with
  | c :: s' => if isWhiteSpace c then trimStart s' else s
  | [] => []
  end.

Definition trimEnd (s : jsstring) : jsstring :=
  reverse (trimStart (reverse s)).

Definition trim (s : jsstring) : jsstring := trimEnd (trimStart s).

Fixpoint startsWith (p s : jsstring) : bool :=
  match p, s with
  | [], _ => true
  | a :: p', b :: s' => (a =? b)%N && startsWith p' s'
  | _ :: _, [] => false
  end.

(** Case folding of the [i] flag on the ASCII letters of the pattern. *)
Definition toLowerAscii (c : N) : N :=
  if ((65 <=? c) && (c <=? 90))%N then (c + 32)%N else c.

(** [/^https?:\/\//i.test(s)] *)
Definition hasSchemeIgnoreCase (s : jsstring) : bool :=
  let l := map toLowerAscii s in
  startsWith (str "https://") l || startsWith (str "http://") l.

(** [/^https?:\/\/.+/.test(s)], the validator of the schema's
    [originalUrl] path: a case-sensitive scheme followed by at least one
    character other than a line terminator. *)
Definition matchAfter (p s : jsstring) : bool :=
  startsWith p s &&
  match drop (length p) s with
  | c :: _ => negb (isLineTerminator c)
  | [] => false
  end.

Definition originalUrlValidator (s : jsstring) : bool :=
  matchAfter (str "https://") s || matchAfter (str "http://") s.

(** [/^[a-zA-Z0-9_-]+$/.test(s)] *)
Definition isCodeChar (c : N) : bool :=
  ((97 <=? c) && (c <=? 122) || (65 <=? c) && (c <=? 90)
   || (48 <=? c) && (c <=? 57) || (c =? 95) || (c =? 45))%N.

Definition validPattern (s : jsstring) : bool :=
  negb (bool_decide (s = [])) && forallb isCodeChar s.

(** The JSON values a request body can carry.  Numbers are the integers;
    arrays and objects are not told apart. *)
Inductive JsValue :=
| JUndefined
| JNull
| JBool (b : bool)
| JNum (z : Z)
| JStr (s : jsstring)
| JObject.

Definition truthy (v : JsValue) : bool :=
  match v with
  | JUndefined | JNull => false
  | JBool b => b
  | JNum z => negb (z =? 0)%Z
  | JStr s => negb (bool_decide (s = []))
  | JObject => true
  end.

Definition isString (v : JsValue) : bool :=
  match v with JStr _ => true | _ => false end.

Definition isBoolean (v : JsValue) : bool :=
  match v with JBool _ => true | _ => false end.

(** ** The environment of a request *)

(** What a request cannot decide by itself: the instant [new Date()]
    reads, the verdict of [new URL(s)] with an http/https protocol
    ([isValidUrl]), the result of the k-th call of [generateShortCode]
    made while serving the request, and [req.protocol], [req.get("host")].
    A request reads the clock once: the instants it reads a few
    milliseconds apart count as one. *)
Record Env := {
  now : Z;
  isValidUrl : jsstring -> bool;
  generateShortCode : nat -> jsstring;
  protocol : jsstring;
  host : jsstring
}.

(** ** utils/helpers.js *)

Module Helpers.

Definition sanitizeUrl (url : JsValue) : jsstring :=
  if negb (truthy url) || negb (isString url) then []
  else match url with
       | JStr s =>
           let url := trim s in
           if negb (hasSchemeIgnoreCase url) then str "http://" ++ url
           else url
       | _ => []
       end.

Definition isValidShortCode (shortCode : JsValue) : bool :=
  if negb (truthy shortCode) || negb (isString shortCode) then false
  else match shortCode with
       | JStr s =>
           validPattern s && (3 <=? length s) && (length s <=? 20)
       | _ => false
       end.

(** The request body of [POST /shorten].  [validity] is absent or a
    whole number of minutes sent as a JSON number; a fraction or a
    string, which [Number()] lets through as well, is not
    represented. *)
Record Body := {
  body_url : JsValue;
  body_validity : option Z;
  body_shortcode : JsValue
}.

Record Validation := { isValid : bool; errors : list string }.

Definition validateShortenRequest (env : Env) (body : Body) : Validation :=
  let e1 :=
    if negb (truthy (body_url body)) then ["URL is required"%string]
    else if negb (isValidUrl env (sanitizeUrl (body_url body)))
         then ["Please provide a valid URL"%string]
         else [] in
  let e2 :=
    match body_validity body with
    | Some validityNum =>
        if (validityNum <? 1)%Z || (525600 <? validityNum)%Z
        then ["Validity must be between 1 and 525600 minutes"%string]
        else []
    | None => []
    end in
  let e3 :=
    match body_shortcode body with
    | JUndefined => []
    | shortcode =>
        if negb (isValidShortCode shortcode)
        then ["Custom shortcode must be 3-20 characters long and contain only letters, numbers, hyphens, and underscores"%string]
        else []
    end in
  let errors := e1 ++ e2 ++ e3 in
  {| isValid := bool_decide (errors = []); errors := errors |}.

(** Dates are milliseconds since the epoch. *)
Definition calculateExpiryDate (env : Env) (validityInMinutes : Z) : Z :=
  (now env + validityInMinutes * 60000)%Z.

Definition generateShortUrl (env : Env) (shortCode : jsstring) : jsstring :=
  protocol env ++ str "://" ++ host env ++ str "/" ++ shortCode.

(** [isExpired(expiry)] of the helpers: a missing date counts as
    expired. *)
Definition isExpired (env : Env) (expiry : option Z) : bool :=
  match expiry with
  | None => true
  | Some expiry => (expiry <? now env)%Z
  end.

(** The decimal digits of a number, as string conversion prints an
    integer. *)
Fixpoint digits (d : Decimal.uint) : jsstring :=
  match d with
  | Decimal.Nil => []
  | Decimal.D0 d => 48%N :: digits d
  | Decimal.D1 d => 49%N :: digits d
  | Decimal.D2 d => 50%N :: digits d
  | Decimal.D3 d => 51%N :: digits d
  | Decimal.D4 d => 52%N :: digits d
  | Decimal.D5 d => 53%N :: digits d
  | Decimal.D6 d => 54%N :: digits d
  | Decimal.D7 d => 55%N :: digits d
  | Decimal.D8 d => 56%N :: digits d
  | Decimal.D9 d => 57%N :: digits d
  end.

Definition numberToString (n : Z) : jsstring :=
  if (n <? 0)%Z then 45%N :: digits (N.to_uint (Z.to_N (- n)))
  else digits (N.to_uint (Z.to_N n)).

(** [Math.floor(a / b)] for a positive [b], and the remainder [a % b],
    which has the sign of [a]. *)
Definition floorDiv (a b : Z) : Z := (a / b)%Z.
Definition remainder (a b : Z) : Z := Z.rem a b.

Definition formatTimeRemaining (env : Env) (expiry : option Z) : jsstring :=
  if isExpired env expiry then str "Expired"
  else
    match expiry with
    | None => str "Expired"
    | Some expiry =>
        let diff := (expiry - now env)%Z in
        let days := floorDiv diff (1000 * 60 * 60 * 24) in
        let hours :=
          floorDiv (remainder diff (1000 * 60 * 60 * 24)) (1000 * 60 * 60) in
        let minutes :=
          floorDiv (remainder diff (1000 * 60 * 60)) (1000 * 60) in
        if (0 <? days)%Z
        then numberToString days ++ str "d " ++ numberToString hours
             ++ str "h " ++ numberToString minutes ++ str "m"
        else if (0 <? hours)%Z
        then numberToString hours ++ str "h " ++ numberToString minutes
             ++ str "m"
        else numberToString minutes ++ str "m"
    end.

(** [chars.charAt(i)]: the empty string out of range. *)
Definition charAt (s : jsstring) (i : nat) : jsstring :=
  match s !! i with Some c => [c] | None => [] end.

Definition chars : jsstring :=
  str "ABCDEFGHIJKLMNOPQRSTUVWXYZabcdefghijklmnopqrstuvwxyz0123456789".

(** The [for] loop of [generateFallbackShortCode], at index [i] with
    [todo] iterations left.  [randomIndex k] is what
    [Math.floor(Math.random() * chars.length)] gives at the k-th
    iteration. *)
Fixpoint fallbackLoop (randomIndex : nat -> nat) (todo i : nat)
    (result : jsstring) : jsstring :=
  match todo with
  | O => result
  | S todo' =>
      fallbackLoop randomIndex todo' (S i)
        (result ++ charAt chars (randomIndex i))
  end.

Definition generateFallbackShortCode (randomIndex : nat -> nat)
    (length : nat) : jsstring :=
  fallbackLoop randomIndex length 0 [].

End Helpers.

(** ** models/urlModel.js *)

Module Url.

(** A document of the collection.  Dates are milliseconds since the
    epoch; [lastAccessed] is [null] until the first redirect. *)
Record doc := {
  originalUrl : jsstring;
  shortCode : jsstring;
  validity : Z;
  expiry : Z;
  clicks : Z;
  createdAt : Z;
  lastAccessed : option Z;
  isActive : bool;
  updatedAt : Z
}.

(** *** Instance methods *)

Definition isExpired (env : Env) (this : doc) : bool :=
  (expiry this <? now env)%Z.

Definition isValidForRedirect (env : Env) (this : doc) : bool :=
  isActive this && negb (isExpired env this).

Definition timeRemaining (env : Env) (this : doc) : Z :=
  if isExpired env this then 0%Z
  else Z.max 0 (expiry this - now env).

(** *** Query filters

    The filters the service builds: equality on [originalUrl] and
    [shortCode], [isActive: true] or [isActive: {$ne: false}], and a
    [$gt]/[$lt] bound on [expiry].  A field left [None] is a property the
    filter object does not have. *)

Inductive activeCond := ActiveEq (b : bool) | ActiveNe (b : bool).
Inductive dateCond := DateGt (d : Z) | DateLt (d : Z).

Record filter := {
  f_originalUrl : option jsstring;
  f_shortCode : option jsstring;
  f_isActive : option activeCond;
  f_expiry : option dateCond
}.

Definition emptyFilter : filter :=
  {| f_originalUrl := None; f_shortCode := None;
     f_isActive := None; f_expiry := None |}.

Definition holds {A} (c : option A) (test : A -> bool) : bool :=
  match c with Some a => test a | None => true end.

Definition matches (q : filter) (u : doc) : bool :=
  holds (f_originalUrl q) (fun v => bool_decide (originalUrl u = v))
  && holds (f_shortCode q) (fun v => bool_decide (shortCode u = v))
  && holds (f_isActive q)
       (fun c => match c with
                 | ActiveEq b => eqb (isActive u) b
                 | ActiveNe b => negb (eqb (isActive u) b)
                 end)
  && holds (f_expiry q)
       (fun c => match c with
                 | DateGt d => (d <? expiry u)%Z
                 | DateLt d => (expiry u <? d)%Z
                 end).

(** The schema declares [shortCode] with [trim: true]: the setter runs
    when a document is built and when the filter of a query is cast to
    the schema. *)
Definition castShortCode (v : jsstring) : jsstring := trim v.

Definition castFilter (q : filter) : filter :=
  {| f_originalUrl := f_originalUrl q;
     f_shortCode := castShortCode <$> f_shortCode q;
     f_isActive := f_isActive q; f_expiry := f_expiry q |}.

(** *** Pre-find middleware

    [urlSchema.pre(/^find/, ...)]: registered for every query operation
    whose name starts with "find" ([find], [findOne], [findOneAndDelete],
    [findOneAndUpdate]); [countDocuments] is not one of them. *)
Definition preFind (q : filter) : filter :=
  match f_isActive q with
  | Some _ => q
  | None =>
      {| f_originalUrl := f_originalUrl q; f_shortCode := f_shortCode q;
         f_isActive := Some (ActiveNe false); f_expiry := f_expiry q |}
  end.

(** *** Query operations on the collection

    [findOne] answers the first match in natural order. *)

Definition findOne (q : filter) (s : list doc) : option (nat * doc) :=
  list_find (fun u => matches (preFind (castFilter q)) u) s.

Definition find (q : filter) (s : list doc) : list doc :=
  base.filter (fun u => matches (preFind (castFilter q)) u) s.

Definition countDocuments (q : filter) (s : list doc) : Z :=
  Z.of_nat (length (base.filter (fun u => matches (castFilter q) u) s)).

Definition findOneAndDelete (q : filter) (s : list doc)
  : option doc * list doc :=
  match findOne q s with
  | Some (i, u) => (Some u, delete i s)
  | None => (None, s)
  end.

(** The update [{ isActive }] applied to a document; the schema's
    [timestamps] option also sets [updatedAt]. *)
Definition setIsActive (env : Env) (newActive : bool) (u : doc) : doc :=
  {| originalUrl := originalUrl u; shortCode := shortCode u;
     validity := validity u; expiry := expiry u; clicks := clicks u;
     createdAt := createdAt u; lastAccessed := lastAccessed u;
     isActive := newActive; updatedAt := now env |}.

(** [findOneAndUpdate(q, { isActive }, { new: true })] *)
Definition findOneAndUpdate (env : Env) (q : filter) (newActive : bool)
    (s : list doc) : option doc * list doc :=
  match findOne q s with
  | Some (i, u) =>
      let u' := setIsActive env newActive u in (Some u', <[i := u']> s)
  | None => (None, s)
  end.

(** *** Static methods *)

Definition findByShortCode (shortCode : jsstring) (s : list doc)
  : option (nat * doc) :=
  findOne {| f_originalUrl := None; f_shortCode := Some shortCode;
             f_isActive := Some (ActiveEq true); f_expiry := None |} s.

(** *** Saving documents *)

Inductive saveError :=
| ValidationError (messages : list string)
| DuplicateKey.

(** Schema validation of a document, path by path: of the validators
    of a path, taken in the order [required], [validate], [maxlength]
    of the schema, the first that fails gives the error of the path. *)
Definition validate (u : doc) : list string :=
  (if bool_decide (originalUrl u = []) then ["Original URL is required"%string]
   else if negb (originalUrlValidator (originalUrl u))
        then ["Please provide a valid URL starting with http:// or https://"%string]
        else if 2048 <? length (originalUrl u) then ["URL is too long"%string]
             else [])
  ++ (if bool_decide (shortCode u = []) then ["Short code is required"%string]
      else (if length (shortCode u) <? 3
            then ["Short code must be at least 3 characters"%string] else [])
           ++ (if 20 <? length (shortCode u)
               then ["Short code cannot exceed 20 characters"%string] else []))
  ++ (if (validity u <? 1)%Z then ["Validity must be at least 1 minute"%string] else [])
  ++ (if (525600 <? validity u)%Z
      then ["Validity cannot exceed 1 year (525600 minutes)"%string] else [])
  ++ (if (clicks u <? 0)%Z then ["Clicks cannot be negative"%string] else []).

(** [new Url({ originalUrl, shortCode, validity, expiry })]: setters and
    defaults applied. *)
Definition create (env : Env) (originalUrl shortCode : jsstring)
    (validity expiry : Z) : doc :=
  {| originalUrl := originalUrl; shortCode := castShortCode shortCode;
     validity := validity; expiry := expiry; clicks := 0;
     createdAt := now env; lastAccessed := None; isActive := true;
     updatedAt := now env |}.

(** [save()] of a new document: validation, then the insert, which the
    unique index on [shortCode] refuses (error 11000) when a document of
    the collection has the same code. *)
Definition save (u : doc) (s : list doc) : saveError + list doc :=
  match validate u with
  | [] =>
      if bool_decide (shortCode u ∈ shortCode <$> s) then inl DuplicateKey
      else inr (s ++ [u])
  | messages => inl (ValidationError messages)
  end.

(** The assignments of [incrementClicks], with the [updatedAt] of the
    [timestamps] option. *)
Definition clicked (env : Env) (this : doc) : doc :=
  {| originalUrl := originalUrl this; shortCode := shortCode this;
     validity := validity this; expiry := expiry this;
     clicks := clicks this + 1; createdAt := createdAt this;
     lastAccessed := Some (now env); isActive := isActive this;
     updatedAt := now env |}.

(** [incrementClicks] on the document found at position [i]: the two
    paths are set and the document is saved in place; [save] validates
    the modified paths, of which [clicks] has a validator. *)
Definition incrementClicks (env : Env) (i : nat) (this : doc) (s : list doc)
  : saveError + doc * list doc :=
  let this' := clicked env this in
  if (clicks this' <? 0)%Z
  then inl (ValidationError ["Clicks cannot be negative"%string])
  else inr (this', <[i := this']> s).

(** *** Sorting, as [Query.sort] orders documents

    Values compare by BSON type first (null, numbers, strings, booleans,
    dates), then by value; strings compare by their UTF-8 bytes.  A
    path the schema does not have is null in every document.  The
    documents here carry no [_id], so that a sort by [_id] is not
    represented. *)
Inductive bson :=
| BNull
| BNum (z : Z)
| BStr (v : jsstring)
| BBool (b : bool)
| BDate (d : Z).

Definition path (name : jsstring) (u : doc) : bson :=
  if bool_decide (name = str "originalUrl") then BStr (originalUrl u)
  else if bool_decide (name = str "shortCode") then BStr (shortCode u)
  else if bool_decide (name = str "validity") then BNum (validity u)
  else if bool_decide (name = str "expiry") then BDate (expiry u)
  else if bool_decide (name = str "clicks") then BNum (clicks u)
  else if bool_decide (name = str "createdAt") then BDate (createdAt u)
  else if bool_decide (name = str "lastAccessed")
       then match lastAccessed u with Some d => BDate d | None => BNull end
  else if bool_decide (name = str "isActive") then BBool (isActive u)
  else if bool_decide (name = str "updatedAt") then BDate (updatedAt u)
  else BNull.

Definition rank (v : bson) : Z :=
  match v with
  | BNull => 0 | BNum _ => 1 | BStr _ => 2 | BBool _ => 3 | BDate _ => 4
  end.

(** Strings are stored in UTF-8 and compared byte by byte, which is
    the order of their code points: a surrogate pair is one code point,
    and a surrogate on its own is stored as U+FFFD. *)
Definition isHighSurrogate (c : N) : bool :=
  ((0xD800 <=? c) && (c <=? 0xDBFF))%N.

Definition isLowSurrogate (c : N) : bool :=
  ((0xDC00 <=? c) && (c <=? 0xDFFF))%N.

Fixpoint codePoints (s : jsstring) : list N :=
  match s with
  | [] => []
  | c :: s' =>
      if isHighSurrogate c
      then match s' with
           | d :: s'' =>
               if isLowSurrogate d
               then (0x10000 + (c - 0xD800) * 0x400 + (d - 0xDC00))%N
                    :: codePoints s''
               else 0xFFFD%N :: codePoints s'
           | [] => [0xFFFD%N]
           end
      else if isLowSurrogate c then 0xFFFD%N :: codePoints s'
      else c :: codePoints s'
  end.

Fixpoint lexLe (a b : list N) : bool :=
  match a, b with
  | [], _ => true
  | _ :: _, [] => false
  | x :: a', y :: b' => (x <? y)%N || (x =? y)%N && lexLe a' b'
  end.

Definition strLe (a b : jsstring) : bool :=
  lexLe (codePoints a) (codePoints b).

Definition bsonLe (a b : bson) : bool :=
  match a, b with
  | BNum x, BNum y => (x <=? y)%Z
  | BStr x, BStr y => strLe x y
  | BBool x, BBool y => implb x y
  | BDate x, BDate y => (x <=? y)%Z
  | _, _ => (rank a <=? rank b)%Z
  end.

(** [sort({ [name]: direction })] with direction [1] or [-1]. *)
Definition precedes (name : jsstring) (direction : Z) (a b : doc) : bool :=
  if (direction <? 0)%Z then bsonLe (path name b) (path name a)
  else bsonLe (path name a) (path name b).

Definition sort (name : jsstring) (direction : Z) (l : list doc) : list doc :=
  merge_sort (fun a b => Is_true (precedes name direction a b)) l.

(** [skip(n)] with [n >= 0], and [limit(n)]: zero is no limit, a
    negative bound asks for that many documents in one batch. *)
Definition skip (n : Z) (l : list doc) : list doc := drop (Z.to_nat n) l.

Definition limit (n : Z) (l : list doc) : list doc :=
  if (n =? 0)%Z then l else take (Z.to_nat (Z.abs n)) l.

(** *** The other static methods

    [deleteMany] is not a find operation: the hook does not run.  It
    answers the number of documents deleted. *)
Definition deleteMany (q : filter) (s : list doc) : Z * list doc :=
  (Z.of_nat (length (base.filter (fun u => matches (castFilter q) u) s)),
   base.filter (fun u => negb (matches (castFilter q) u)) s).

Definition findActiveUrls (env : Env) (s : list doc) : list doc :=
  find {| f_originalUrl := None; f_shortCode := None;
          f_isActive := Some (ActiveEq true);
          f_expiry := Some (DateGt (now env)) |} s.

Definition findExpiredUrls (env : Env) (s : list doc) : list doc :=
  find {| f_originalUrl := None; f_shortCode := None; f_isActive := None;
          f_expiry := Some (DateLt (now env)) |} s.

Definition cleanupExpiredUrls (env : Env) (s : list doc) : Z * list doc :=
  deleteMany {| f_originalUrl := None; f_shortCode := None;
                f_isActive := None;
                f_expiry := Some (DateLt (now env)) |} s.

End Url.

(** ** controllers/urlController.js *)

Module Controller.
Import Helpers Url.

(** The bodies the handlers send. *)
Record stats := {
  st_shortCode : jsstring;
  st_originalUrl : jsstring;
  st_clicks : Z;
  st_validity : Z;
  st_expiry : Z;
  st_isExpired : bool;
  st_isActive : bool;
  st_createdAt : Z;
  st_lastAccessed : option Z;
  st_timeRemaining : Z
}.

(** A JavaScript number that may come from a division by zero. *)
Inductive jsnum := Num (z : Z) | Infinity | NaN.

Record pagination := {
  currentPage : Z;
  totalPages : jsnum;
  totalItems : Z;
  itemsPerPage : Z;
  hasNextPage : bool;
  hasPrevPage : bool
}.

Inductive payload :=
| ValidationFailed (details : list string)
| AlreadyShortened (shortLink : jsstring) (expiry : Z)
| CustomCodeActive
| Created (shortLink : jsstring) (expiry : Z) (shortCode originalUrl : jsstring)
    (validity : Z)
| ShortCodeExists
| ValidationErrorBody (details : list string)
| InternalServerError (message : option string)
| NotFound (shortCode : jsstring)
| Expired (shortCode : jsstring) (expiredAt : Z)
| NoLongerActive (shortCode : jsstring)
| Stats (fields : stats)
| Listing (urls : list doc) (pages : pagination)
| Deleted (shortCode originalUrl : jsstring) (createdAt clicks : Z)
| StatusUpdated (activated : bool) (shortCode originalUrl : jsstring)
    (isActive : bool)
| NotBoolean.

Inductive response :=
| Json (status : Z) (body : payload)
| Redirect (status : Z) (location : jsstring).

Definition status (r : response) : Z :=
  match r with Json c _ => c | Redirect c _ => c end.

(** What the [try] block of [createShortUrl] can throw. *)
Inductive thrown :=
| GenerationError
| SaveError (e : saveError).

(** The [catch] block of [createShortUrl]. *)
Definition catchCreate (error : thrown) : response :=
  match error with
  | SaveError DuplicateKey => Json 409 ShortCodeExists
  | SaveError (ValidationError messages) => Json 400 (ValidationErrorBody messages)
  | GenerationError =>
      Json 500 (InternalServerError
                  (Some "Unable to generate unique short code. Please try again."%string))
  end.

Definition maxAttempts : nat := 10.

(** How the [do ... while] loop of the no-shortcode branch ends: on a
    code, or by its [throw], after [attempts] calls of the generator.
    [Unfinished] is the model running out of iterations. *)
Inductive looped :=
| Settled (shortCode : jsstring) (attempts : nat)
| Threw (attempts : nat)
| Unfinished.

Definition attemptsMade (r : looped) : nat :=
  match r with
  | Settled _ attempts | Threw attempts => attempts
  | Unfinished => 0
  end.

(** The loop, entered with [attempts] calls of the generator already
    made.  [fuel] bounds the iterations; with [maxAttempts] of it the
    loop always finishes (see [generateLoop_total]). *)
Fixpoint generateLoop (env : Env) (s : list doc) (fuel attempts : nat)
  : looped :=
  match fuel with
  | O => Unfinished
  | S fuel' =>
      let shortCode := generateShortCode env attempts in
      let attempts := S attempts in
      if maxAttempts <=? attempts then Threw attempts
      else match findByShortCode shortCode s with
           | Some _ => generateLoop env s fuel' attempts
           | None => Settled shortCode attempts
           end
  end.

(** [validity || process.env.DEFAULT_VALIDITY_MINUTES || 30], the
    environment variable being unset. *)
Definition validityOrDefault (validity : option Z) : Z :=
  match validity with
  | Some v => if (v =? 0)%Z then 30%Z else v
  | None => 30%Z
  end.

(** The string a truthy [shortcode] is: [validateShortenRequest] lets
    nothing but strings through. *)
Definition codeOf (shortcode : JsValue) : jsstring :=
  match shortcode with JStr c => c | _ => [] end.

(** The choice of the short code: [inl] is a response sent, or an error
    thrown, before any document is built. *)
Definition chooseShortCode (env : Env) (body : Body) (s : list doc)
  : (response + thrown) + jsstring :=
  if truthy (body_shortcode body) then
    let shortcode := codeOf (body_shortcode body) in
    match findByShortCode shortcode s with
    | Some (_, codeExists) =>
        if isValidForRedirect env codeExists
        then inl (inl (Json 400 CustomCodeActive))
        else inr shortcode
    | None => inr shortcode
    end
  else
    match generateLoop env s maxAttempts 0 with
    | Settled shortCode _ => inr shortCode
    | Threw _ | Unfinished => inl (inr GenerationError)
    end.

(** The guard [existingUrl && existingUrl.isValidForRedirect()]. *)
Definition validExisting (env : Env) (existingUrl : option (nat * doc))
  : option doc :=
  match existingUrl with
  | Some (_, existingUrl) =>
      if isValidForRedirect env existingUrl then Some existingUrl else None
  | None => None
  end.

Definition createShortUrl (env : Env) (body : Body) (s : list doc)
  : response * list doc :=
  let validation := validateShortenRequest env body in
  if negb (isValid validation)
  then (Json 400 (ValidationFailed (errors validation)), s)
  else
    let sanitizedUrl := sanitizeUrl (body_url body) in
    let validityInMinutes := validityOrDefault (body_validity body) in
    let expiryDate := calculateExpiryDate env validityInMinutes in
    let existingUrl :=
      findOne {| f_originalUrl := Some sanitizedUrl; f_shortCode := None;
                 f_isActive := None; f_expiry := None |} s in
    match validExisting env existingUrl with
    | Some existingUrl =>
        (Json 200 (AlreadyShortened
                     (generateShortUrl env (shortCode existingUrl))
                     (expiry existingUrl)), s)
    | None =>
        match chooseShortCode env body s with
        | inl (inl sent) => (sent, s)
        | inl (inr error) => (catchCreate error, s)
        | inr shortCode =>
            match save (create env sanitizedUrl shortCode
                          validityInMinutes expiryDate) s with
            | inr s' =>
                (Json 201 (Created (generateShortUrl env shortCode) expiryDate
                             shortCode sanitizedUrl validityInMinutes), s')
            | inl error => (catchCreate (SaveError error), s)
            end
        end
    end.

Definition redirectToUrl (env : Env) (shortCode : jsstring) (s : list doc)
  : response * list doc :=
  match findByShortCode shortCode s with
  | None => (Json 404 (NotFound shortCode), s)
  | Some (i, url) =>
      if isExpired env url
      then (Json 410 (Expired shortCode (expiry url)), s)
      else if negb (isActive url)
      then (Json 410 (NoLongerActive shortCode), s)
      else match incrementClicks env i url s with
           | inr (url, s') => (Redirect 301 (originalUrl url), s')
           | inl _ => (Json 500 (InternalServerError None), s)
           end
  end.

Definition getUrlStats (env : Env) (shortCode : jsstring) (s : list doc)
  : response :=
  match findByShortCode shortCode s with
  | None => Json 404 (NotFound shortCode)
  | Some (_, url) =>
      Json 200 (Stats
        {| st_shortCode := Url.shortCode url;
           st_originalUrl := originalUrl url;
           st_clicks := clicks url;
           st_validity := validity url;
           st_expiry := expiry url;
           st_isExpired := isExpired env url;
           st_isActive := isActive url;
           st_createdAt := createdAt url;
           st_lastAccessed := lastAccessed url;
           st_timeRemaining := timeRemaining env url |})
  end.

(** The query string of [GET /api/urls] with its defaults applied:
    [page] and [limit] as the numbers they convert to, [includeExpired]
    as the truthiness of what was sent.  [page] and [limit] are whole
    numbers on which [parseInt] and the numeric conversion agree, as on
    the defaults and on plain decimal strings. *)
Record listQuery := {
  page : Z;
  limit : Z;
  sortBy : jsstring;
  sortOrder : jsstring;
  includeExpired : bool
}.

Definition defaultListQuery : listQuery :=
  {| page := 1; limit := 10; sortBy := str "createdAt";
     sortOrder := str "desc"; includeExpired := false |}.

(** [Math.ceil(total / limit)] for a count [total >= 0]. *)
Definition ceilDiv (total limit : Z) : jsnum :=
  if (limit =? 0)%Z then (if (total =? 0)%Z then NaN else Infinity)
  else Num (- ((- total) / limit))%Z.

Definition ltNum (a : Z) (b : jsnum) : bool :=
  match b with
  | Num z => (a <? z)%Z
  | Infinity => true
  | NaN => false
  end.

Definition getAllUrls (env : Env) (rq : listQuery) (s : list doc) : response :=
  let query :=
    if negb (includeExpired rq)
    then {| f_originalUrl := None; f_shortCode := None; f_isActive := None;
            f_expiry := Some (DateGt (now env)) |}
    else emptyFilter in
  let direction := if bool_decide (sortOrder rq = str "desc") then (-1)%Z else 1%Z in
  let skip := ((page rq - 1) * limit rq)%Z in
  if (skip <? 0)%Z
  then Json 500 (InternalServerError None)
  else
    let urls :=
      Url.limit (limit rq)
        (Url.skip skip (Url.sort (sortBy rq) direction (find query s))) in
    let total := countDocuments query s in
    let totalPages := ceilDiv total (limit rq) in
    Json 200 (Listing urls
      {| currentPage := page rq;
         totalPages := totalPages;
         totalItems := total;
         itemsPerPage := limit rq;
         hasNextPage := ltNum (page rq) totalPages;
         hasPrevPage := (1 <? page rq)%Z |}).

Definition deleteUrl (shortCode : jsstring) (s : list doc)
  : response * list doc :=
  match findOneAndDelete
          {| f_originalUrl := None; f_shortCode := Some shortCode;
             f_isActive := None; f_expiry := None |} s with
  | (None, s') => (Json 404 (NotFound shortCode), s')
  | (Some deletedUrl, s') =>
      (Json 200 (Deleted (Url.shortCode deletedUrl) (originalUrl deletedUrl)
                   (createdAt deletedUrl) (clicks deletedUrl)), s')
  end.

Definition updateUrlStatus (env : Env) (shortCode : jsstring)
    (isActive : JsValue) (s : list doc) : response * list doc :=
  match isActive with
  | JBool isActive =>
      match findOneAndUpdate env
              {| f_originalUrl := None; f_shortCode := Some shortCode;
                 f_isActive := None; f_expiry := None |} isActive s with
      | (None, s') => (Json 404 (NotFound shortCode), s')
      | (Some url, s') =>
          (Json 200 (StatusUpdated isActive (Url.shortCode url)
                       (originalUrl url) (Url.isActive url)), s')
      end
  | _ => (Json 400 NotBoolean, s)
  end.

End Controller.

(** ** middleware/errorHandler.js *)

Module Middleware.

(** The properties of a thrown value that the handler reads.
    [e_errors] is the list of the [message]s of the values of
    [err.errors], each an object, and [e_keyValue] the list of the keys of
    [err.keyValue]; [None] where the property is [undefined] or [null],
    of which [Object.values] and [Object.keys] throw a [TypeError]. *)
Record jsError := {
  e_name : JsValue;
  e_message : JsValue;
  e_status : JsValue;
  e_statusCode : JsValue;
  e_code : JsValue;
  e_errors : option (list JsValue);
  e_keyValue : option (list jsstring);
  e_stack : JsValue
}.

(** [a || b] *)
Definition orElse (a b : JsValue) : JsValue := if truthy a then a else b.

(** [v === "literal"] and [v === number] *)
Definition isStr (v : JsValue) (literal : string) : bool :=
  match v with JStr x => bool_decide (x = str literal) | _ => false end.

Definition isNum (v : JsValue) (n : Z) : bool :=
  match v with JNum z => (z =? n)%Z | _ => false end.

(** The local [error] object. *)
Record errorInfo := {
  message : JsValue;
  status : JsValue;
  details : option (list JsValue);
  field : option jsstring
}.

Definition plain (message : string) (status : Z) : errorInfo :=
  {| message := JStr (str message); status := JNum status;
     details := None; field := None |}.

(** The body sent: [details], [field] and [stack] are spread in only
    under their conditions. *)
Record errorBody := {
  b_error : JsValue;
  b_details : option (list JsValue);
  b_field : option jsstring;
  b_stack : option JsValue
}.

Record reply := { r_status : JsValue; r_body : errorBody }.

(** [errorHandler(err, req, res, next)] under [process.env.NODE_ENV];
    [None] when the handler itself throws. *)
Definition errorHandler (NODE_ENV : option jsstring) (err : jsError)
  : option reply :=
  let error :=
    {| message := orElse (e_message err) (JStr (str "Internal Server Error"));
       status := orElse (orElse (e_status err) (e_statusCode err)) (JNum 500);
       details := None; field := None |} in
  error ←
    (if isStr (e_name err) "ValidationError"
     then messages ← e_errors err;
          Some {| message := JStr (str "Validation Error"); status := JNum 400;
                  details := Some messages; field := None |}
     else Some error);
  error ←
    (if isNum (e_code err) 11000
     then keys ← e_keyValue err;
          let field := head keys in
          Some {| message :=
                    JStr (str "Duplicate value for "
                          ++ default (str "undefined") field);
                  status := JNum 409; details := None; field := field |}
     else Some error);
  let error :=
    if isStr (e_name err) "CastError" then plain "Invalid ID format" 400
    else error in
  let error :=
    if isStr (e_name err) "JsonWebTokenError" then plain "Invalid token" 401
    else error in
  let error :=
    if isStr (e_name err) "TokenExpiredError" then plain "Token expired" 401
    else error in
  let error :=
    if isStr (e_name err) "MongoNetworkError"
       || isStr (e_name err) "MongoTimeoutError"
    then plain "Database connection error" 503
    else error in
  let error :=
    if isNum (e_status err) 429
    then plain "Too many requests, please try again later" 429
    else error in
  let error :=
    if bool_decide (NODE_ENV = Some (str "production"))
       && isNum (status error) 500
    then {| message := JStr (str "Internal Server Error");
            status := status error; details := None; field := field error |}
    else error in
  Some {| r_status := status error;
          r_body :=
            {| b_error := message error;
               b_details := details error;
               b_field :=
                 match field error with
                 | Some f => if bool_decide (f = []) then None else Some f
                 | None => None
                 end;
               b_stack :=
                 if bool_decide (NODE_ENV = Some (str "development"))
                 then Some (e_stack err) else None |} |}.

(** [validateRequest.shortCode]: [None] is [next()], otherwise the
    status of the response sent.  The route parameter is a string or
    absent. *)
Definition validateShortCodeParam (shortCode : option jsstring) : option Z :=
  match shortCode with
  | Some c =>
      if truthy (JStr c) && negb (validPattern c) then Some 400%Z else None
  | None => None
  end.

End Middleware.

(** ** Vocabulary of the statements *)

Definition blank (c : N) : Prop := isWhiteSpace c = true.

(** No whitespace at either end. *)
Definition trimmed (t : jsstring) : Prop :=
  (∀ c, head t = Some c → isWhiteSpace c = false)
  ∧ (∀ c, last t = Some c → isWhiteSpace c = false).

(** What the collection guarantees of its documents whatever requests
    were served: the unique index keeps the short codes pairwise
    distinct, and the [trim] setter has run on each of them. *)
Definition wf (s : list Url.doc) : Prop :=
  NoDup (Url.shortCode <$> s)
  ∧ Forall (fun u => trim (Url.shortCode u) = Url.shortCode u) s.

(** The filter [{ shortCode }] of the admin operations. *)
Definition byShortCode (shortCode : jsstring) : Url.filter :=
  {| Url.f_originalUrl := None; Url.f_shortCode := Some shortCode;
     Url.f_isActive := None; Url.f_expiry := None |}.

(** The filter [{ originalUrl }] of the deduplication step. *)
Definition byOriginalUrl (originalUrl : jsstring) : Url.filter :=
  {| Url.f_originalUrl := Some originalUrl; Url.f_shortCode := None;
     Url.f_isActive := None; Url.f_expiry := None |}.

(** The requests that read or change the collection, and the states
    the service can be in: the empty collection and whatever serving a
    request leaves. *)
Inductive request :=
| Shorten (env : Env) (body : Helpers.Body)
| Resolve (env : Env) (shortCode : jsstring)
| Remove (shortCode : jsstring)
| SetActive (env : Env) (shortCode : jsstring) (isActive : JsValue).

Definition serve (rq : request) (s : list Url.doc)
  : Controller.response * list Url.doc :=
  match rq with
  | Shorten env body => Controller.createShortUrl env body s
  | Resolve env shortCode => Controller.redirectToUrl env shortCode s
  | Remove shortCode => Controller.deleteUrl shortCode s
  | SetActive env shortCode isActive =>
      Controller.updateUrlStatus env shortCode isActive s
  end.

Inductive reachable : list Url.doc → Prop :=
| reachable_empty : reachable []
| reachable_serve rq s : reachable s → reachable (serve rq s).2.

(** What the schema makes of every document: it passes the
    validators, and its code is trimmed. *)
Definition sound (u : Url.doc) : Prop :=
  Url.validate u = [] ∧ trim (Url.shortCode u) = Url.shortCode u.

(** The order of two documents next to each other on a page sorted by
    the number or date [key]: descending when [sortOrder] is [desc],
    ascending otherwise. *)
Definition inOrder (sortOrder : jsstring) (key : Url.doc → Z)
    (a b : Url.doc) : Prop :=
  if bool_decide (sortOrder = str "desc") then (key b ≤ key a)%Z
  else (key a ≤ key b)%Z.

(** What every assignment to the local [error] of the error handler
    keeps: a truthy status and message, [details] only with status 400
    and the messages of a [ValidationError], a [field] only with status
    409 and the duplicate-key code. *)
Definition classified (err : Middleware.jsError)
    (error : Middleware.errorInfo) : Prop :=
  truthy (Middleware.status error) = true
  ∧ truthy (Middleware.message error) = true
  ∧ (∀ l, Middleware.details error = Some l →
          Middleware.status error = JNum 400
          ∧ Middleware.e_errors err = Some l
          ∧ Middleware.isStr (Middleware.e_name err) "ValidationError" = true)
  ∧ (∀ f, Middleware.field error = Some f →
          Middleware.status error = JNum 409
          ∧ Middleware.isNum (Middleware.e_code err) 11000 = true).

(** ** Sample data

    A clock reading and a generator that always answers [code]; the
    URLs of the samples are ones [new URL] accepts.  A sample document
    is what a request made at time 0 for a validity of one minute
    leaves, as it is afterwards or as a deactivation at time [updated]
    leaves it. *)

Definition sampleEnv (t : Z) (code : string) : Env :=
  {| now := t; isValidUrl := fun _ => true;
     generateShortCode := fun _ => str code;
     protocol := str "http"; host := str "localhost:4000" |}.

(** The same with a generator that answers [first] at its first call
    and [next] afterwards. *)
Definition sampleEnvThen (t : Z) (first next : string) : Env :=
  {| now := t; isValidUrl := fun _ => true;
     generateShortCode :=
       fun k => match k with O => str first | S _ => str next end;
     protocol := str "http"; host := str "localhost:4000" |}.

Definition sampleBody (url : string) (validity : option Z)
    (shortcode : JsValue) : Helpers.Body :=
  {| Helpers.body_url := JStr (str url); Helpers.body_validity := validity;
     Helpers.body_shortcode := shortcode |}.

Definition sampleDoc (url code : string) (active : bool) (updated : Z)
  : Url.doc :=
  {| Url.originalUrl := str url; Url.shortCode := str code;
     Url.validity := 1; Url.expiry := 60000; Url.clicks := 0;
     Url.createdAt := 0; Url.lastAccessed := None; Url.isActive := active;
     Url.updatedAt := updated |}.

(** An error as a handler or the driver throws it: a name, a message,
    and where they apply a status, a code and the keys of [keyValue];
    [errors] is absent. *)
Definition sampleError (name message : string) (status code : JsValue)
    (keys : option (list jsstring)) : Middleware.jsError :=
  {| Middleware.e_name := JStr (str name);
     Middleware.e_message := JStr (str message);
     Middleware.e_status := status; Middleware.e_statusCode := JUndefined;
     Middleware.e_code := code; Middleware.e_errors := None;
     Middleware.e_keyValue := keys;
     Middleware.e_stack := JStr (str "Error") |}.

(** * Properties *)

(** ** Strings: trimming and the scheme test *)

Section Trimming.

Lemma trimStart_split s :
  ∃ pre, s = pre ++ trimStart s ∧ Forall blank pre.
Proof.
  induction s as [|c s [pre [Hs Hpre]]]; simpl.
  - by exists [].
  - destruct (isWhiteSpace c) eqn:Hc.
    + exists (c :: pre). split; [by rewrite Hs at 1 | by constructor].
    + by exists [].
Qed.

Lemma trimStart_head s c :
  head (trimStart s) = Some c → isWhiteSpace c = false.
Proof.
  induction s as [|d s IH]; simpl; [done|].
  destruct (isWhiteSpace d) eqn:Hd; [done|].
  simpl. by intros [= ->].
Qed.

Lemma trimStart_id s :
  (∀ c, head s = Some c → isWhiteSpace c = false) → trimStart s = s.
Proof.
  destruct s as [|c s]; simpl; [done|].
  intros H. by rewrite (H c eq_refl).
Qed.

Lemma trimEnd_split s :
  ∃ post, s = trimEnd s ++ post ∧ Forall blank post.
Proof.
  destruct (trimStart_split (reverse s)) as [pre [Hs Hpre]].
  exists (reverse pre). split.
  - unfold trimEnd. rewrite <- reverse_app, <- Hs.
    by rewrite reverse_involutive.
  - by apply Forall_reverse.
Qed.

Lemma trimEnd_last s c :
  last (trimEnd s) = Some c → isWhiteSpace c = false.
Proof.
  unfold trimEnd. rewrite last_reverse. apply trimStart_head.
Qed.

Lemma trimEnd_id s :
  (∀ c, last s = Some c → isWhiteSpace c = false) → trimEnd s = s.
Proof.
  intros H. unfold trimEnd. rewrite trimStart_id.
  - apply reverse_involutive.
  - intros c. rewrite head_reverse. apply H.
Qed.

(** [trim] removes a run of whitespace at each end and nothing else. *)
Lemma trim_split s :
  ∃ pre post, s = pre ++ trim s ++ post
              ∧ Forall blank pre ∧ Forall blank post ∧ trimmed (trim s).
Proof.
  destruct (trimStart_split s) as [pre [Hs Hpre]].
  destruct (trimEnd_split (trimStart s)) as [post [Ht Hpost]].
  exists pre, post. unfold trim. split_and!; try done.
  - by rewrite <- Ht.
  - split; [|apply trimEnd_last].
    intros c Hc. apply (trimStart_head s).
    rewrite Ht. destruct (trimEnd (trimStart s)); [done|]. exact Hc.
Qed.

Lemma trim_id t : trimmed t → trim t = t.
Proof.
  intros [Hh Hl]. unfold trim. rewrite (trimStart_id t Hh).
  by apply trimEnd_id.
Qed.

Lemma trim_idemp s : trim (trim s) = trim s.
Proof.
  apply trim_id. by destruct (trim_split s) as (? & ? & _ & _ & _ & ?).
Qed.

Lemma isCodeChar_not_blank c : isCodeChar c = true → isWhiteSpace c = false.
Proof.
  unfold isCodeChar, isWhiteSpace. intros H.
  apply not_true_is_false. intros Hw.
  repeat (rewrite ?orb_true_iff, ?andb_true_iff, ?N.leb_le, ?N.eqb_eq in H).
  repeat (rewrite ?orb_true_iff, ?andb_true_iff, ?N.leb_le, ?N.eqb_eq in Hw).
  lia.
Qed.

(** A string of code characters has nothing to trim. *)
Lemma validPattern_trim s : validPattern s = true → trim s = s.
Proof.
  unfold validPattern. rewrite andb_true_iff, forallb_forall.
  intros [_ H]. apply trim_id. split; intros c Hc.
  - apply isCodeChar_not_blank, H, list_elem_of_In.
    destruct s; simplify_eq/=. left.
  - apply isCodeChar_not_blank, H, list_elem_of_In.
    apply last_Some in Hc as [l' ->].
    apply elem_of_app. right. constructor.
Qed.

Lemma startsWith_prefix p s :
  startsWith p s = true ↔ ∃ rest, s = p ++ rest.
Proof.
  revert s. induction p as [|a p IH]; intros s; simpl.
  - split; [by exists s | done].
  - destruct s as [|b s].
    + split; [done | by intros [? ?]].
    + rewrite andb_true_iff, N.eqb_eq, IH. split.
      * intros [-> [rest ->]]. by exists rest.
      * intros [rest [= -> ->]]. eauto.
Qed.

(** The scheme test holds exactly of the strings that begin, in any
    letter case, with [http://] or [https://]. *)
Lemma hasSchemeIgnoreCase_spec t :
  hasSchemeIgnoreCase t = true ↔
  ∃ scheme rest, t = scheme ++ rest
    ∧ (toLowerAscii <$> scheme = str "https://"
       ∨ toLowerAscii <$> scheme = str "http://").
Proof.
  unfold hasSchemeIgnoreCase. rewrite orb_true_iff, !startsWith_prefix.
  split.
  - intros [[rest H]|[rest H]].
    + exists (take 8 t), (drop 8 t). rewrite take_drop. split; [done|].
      left. change (map toLowerAscii t) with (toLowerAscii <$> t) in H.
      by rewrite fmap_take, H.
    + exists (take 7 t), (drop 7 t). rewrite take_drop. split; [done|].
      right. change (map toLowerAscii t) with (toLowerAscii <$> t) in H.
      by rewrite fmap_take, H.
  - intros (scheme & rest & -> & [H|H]); [left|right];
      exists (toLowerAscii <$> rest);
      change (map toLowerAscii (scheme ++ rest))
        with (toLowerAscii <$> (scheme ++ rest));
      by rewrite fmap_app, H.
Qed.

End Trimming.

(** ** The collection: lookups under the unique index *)

Section Collection.
Import Url.

Implicit Types (s : list doc) (u v : doc) (q : filter) (c : jsstring).

Lemma findOne_Some q s i u :
  findOne q s = Some (i, u) →
  s !! i = Some u ∧ matches (preFind (castFilter q)) u = true.
Proof.
  unfold findOne. intros (? & ? & _)%list_find_Some.
  split; [done | by apply Is_true_true].
Qed.

Lemma findOne_None q s :
  findOne q s = None
  ↔ ∀ u, u ∈ s → matches (preFind (castFilter q)) u = false.
Proof.
  unfold findOne. rewrite list_find_None, Forall_forall. split.
  - intros H u Hu. specialize (H u Hu).
    destruct (matches (preFind (castFilter q)) u); [by destruct H | done].
  - intros H u Hu. rewrite (H u Hu). by intros [].
Qed.

(** The hook turns the filter [{ shortCode }] into the one of
    [findByShortCode]: [isActive] is a boolean in every document. *)
Lemma findOne_byShortCode c s :
  findOne (byShortCode c) s = findByShortCode c s.
Proof.
  unfold findByShortCode, findOne. apply list_find_ext. intros u.
  unfold matches, preFind, castFilter, byShortCode, holds; simpl.
  by destruct (isActive u).
Qed.

Lemma matches_findByShortCode c u :
  matches (preFind (castFilter {| f_originalUrl := None;
                                  f_shortCode := Some c;
                                  f_isActive := Some (ActiveEq true);
                                  f_expiry := None |})) u = true
  ↔ shortCode u = trim c ∧ isActive u = true.
Proof.
  unfold matches, preFind, castFilter, holds, castShortCode; simpl.
  rewrite !andb_true_r, andb_true_iff, bool_decide_eq_true.
  by destruct (isActive u).
Qed.

Lemma findByShortCode_Some c s i u :
  findByShortCode c s = Some (i, u) →
  s !! i = Some u ∧ shortCode u = trim c ∧ isActive u = true.
Proof.
  intros [? ?%matches_findByShortCode]%findOne_Some. by split.
Qed.

(** The collision test of the service: an active holder of the code,
    expired or not. *)
Lemma findByShortCode_is_Some c s :
  is_Some (findByShortCode c s)
  ↔ ∃ u, u ∈ s ∧ shortCode u = trim c ∧ isActive u = true.
Proof.
  split.
  - intros [[i u] (? & ? & ?)%findByShortCode_Some].
    exists u. split_and!; try done. by eapply list_elem_of_lookup_2.
  - intros (u & Hu & Hc & Ha).
    destruct (findByShortCode c s) as [x|] eqn:E; [by eexists|].
    unfold findByShortCode in E. rewrite findOne_None in E.
    specialize (E u Hu).
    assert (matches (preFind (castFilter {| f_originalUrl := None;
                      f_shortCode := Some c;
                      f_isActive := Some (ActiveEq true);
                      f_expiry := None |})) u = true) as E'
      by by apply matches_findByShortCode.
    congruence.
Qed.

Lemma findByShortCode_None c s :
  findByShortCode c s = None
  ↔ ∀ u, u ∈ s → shortCode u = trim c → isActive u = false.
Proof.
  rewrite eq_None_not_Some, findByShortCode_is_Some. split.
  - intros H u Hu Hc. destruct (isActive u) eqn:Ha; [|done].
    destruct H. by exists u.
  - intros H (u & Hu & Hc & Ha). rewrite (H u Hu Hc) in Ha. done.
Qed.

Lemma codes_lookup_inj s i j u v :
  NoDup (shortCode <$> s) →
  s !! i = Some u → s !! j = Some v → shortCode u = shortCode v → i = j.
Proof.
  intros Hnd Hi Hj Hc.
  apply (NoDup_lookup _ i j (shortCode u) Hnd).
  - by rewrite list_lookup_fmap, Hi.
  - by rewrite list_lookup_fmap, Hj, Hc.
Qed.

(** Under the unique index the holder of a code decides the lookup. *)
Lemma findByShortCode_holder c s i u :
  NoDup (shortCode <$> s) → s !! i = Some u → shortCode u = trim c →
  findByShortCode c s = if isActive u then Some (i, u) else None.
Proof.
  intros Hnd Hi Hc. destruct (isActive u) eqn:Ha.
  - unfold findByShortCode, findOne. apply list_find_Some.
    split_and!; [done| |].
    + apply Is_true_true. by apply matches_findByShortCode.
    + intros j v Hj Hlt
        [Hv _]%Is_true_true%matches_findByShortCode.
      assert (i = j) by (eapply codes_lookup_inj; eauto; congruence).
      lia.
  - apply findByShortCode_None. intros v Hv Hcv.
    apply list_elem_of_lookup_1 in Hv as [j Hj].
    assert (i = j) by (eapply codes_lookup_inj; eauto; congruence).
    congruence.
Qed.

Lemma wf_nil : wf [].
Proof. split; [apply NoDup_nil_2 | constructor]. Qed.

Lemma wf_insert s i u u' :
  wf s → s !! i = Some u → shortCode u' = shortCode u → wf (<[i := u']> s).
Proof.
  intros [Hnd Htr] Hi Hc. split.
  - rewrite list_fmap_insert, Hc, list_insert_id; [done|].
    by rewrite list_lookup_fmap, Hi.
  - apply Forall_insert; [done|]. rewrite Hc.
    by apply (Forall_lookup_1 _ _ _ _ Htr Hi).
Qed.

Lemma wf_delete s i : wf s → wf (delete i s).
Proof.
  intros [Hnd Htr]. split.
  - rewrite list_fmap_delete.
    eauto using sublist_NoDup, sublist_delete.
  - by apply Forall_delete.
Qed.

Lemma save_inr u s s' :
  save u s = inr s' ↔
  validate u = [] ∧ (∀ v, v ∈ s → shortCode v ≠ shortCode u) ∧ s' = s ++ [u].
Proof.
  unfold save. destruct (validate u) eqn:Hv.
  - case_bool_decide as Hin.
    + split; [done|]. intros (_ & Hn & _). exfalso.
      apply list_elem_of_fmap in Hin as (v & Hc & Hv').
      by apply (Hn v Hv').
    + split.
      * intros [= <-]. split_and!; try done.
        intros v Hv' Hc. apply Hin. rewrite <- Hc.
        by apply list_elem_of_fmap_2.
      * by intros (_ & _ & ->).
  - split; [done | by intros [? _]].
Qed.

Lemma save_DuplicateKey u s :
  save u s = inl DuplicateKey ↔
  validate u = [] ∧ ∃ v, v ∈ s ∧ shortCode v = shortCode u.
Proof.
  unfold save. destruct (validate u) eqn:Hv.
  - case_bool_decide as Hin.
    + split; [|done]. intros _. split; [done|].
      apply list_elem_of_fmap in Hin as (v & Hc & Hv'). eauto.
    + split; [done|]. intros (_ & v & Hv' & Hc). destruct Hin.
      rewrite <- Hc. by apply list_elem_of_fmap_2.
  - split; [done | by intros [? _]].
Qed.

Lemma wf_save s u s' :
  wf s → trim (shortCode u) = shortCode u → save u s = inr s' → wf s'.
Proof.
  intros [Hnd Htr] Hu (_ & Hfresh & ->)%save_inr. split.
  - rewrite fmap_app. apply NoDup_app. split_and!; [done| |].
    + intros c (v & -> & Hv)%list_elem_of_fmap [= Hc]%list_elem_of_singleton.
      by apply (Hfresh v Hv).
    + apply NoDup_singleton.
  - apply Forall_app. split; [done | by constructor].
Qed.

End Collection.

(** ** Redirection, statistics and the admin operations *)

Section Handlers.
Import Helpers Url Controller.

Implicit Types (s : list doc) (u v : doc) (c : jsstring) (env : Env).

Lemma wf_lookup_trim s i u : wf s → s !! i = Some u → trim (shortCode u) = shortCode u.
Proof. intros [_ Htr] Hi. by apply (Forall_lookup_1 _ _ _ _ Htr Hi). Qed.

Lemma findByShortCode_stored s i u :
  wf s → s !! i = Some u →
  findByShortCode (shortCode u) s = if isActive u then Some (i, u) else None.
Proof.
  intros Hwf Hi. apply findByShortCode_holder; [apply Hwf | done |].
  symmetry. by eapply wf_lookup_trim.
Qed.

(** The status toggle on a stored document: it is found only while
    active. *)
Lemma updateUrlStatus_stored env s i u b :
  wf s → s !! i = Some u →
  updateUrlStatus env (shortCode u) (JBool b) s =
    if isActive u
    then (Json 200 (StatusUpdated b (shortCode u) (originalUrl u) b),
          <[i := setIsActive env b u]> s)
    else (Json 404 (NotFound (shortCode u)), s).
Proof.
  intros Hwf Hi. unfold updateUrlStatus, findOneAndUpdate.
  change {| f_originalUrl := None; f_shortCode := Some (shortCode u);
            f_isActive := None; f_expiry := None |}
    with (byShortCode (shortCode u)).
  rewrite findOne_byShortCode, (findByShortCode_stored s i u Hwf Hi).
  by destruct (isActive u).
Qed.

Lemma updateUrlStatus_wf env s c x : wf s → wf (updateUrlStatus env c x s).2.
Proof.
  intros Hwf. unfold updateUrlStatus. destruct x; try done.
  unfold findOneAndUpdate.
  destruct (findOne _ s) as [[i u]|] eqn:E; [|done].
  apply findOne_Some in E as [Hi _]. simpl.
  by eapply wf_insert.
Qed.

(** After a deactivation no active document holds the code. *)
Lemma deactivated_no_active_holder env s u :
  wf s → u ∈ s →
  findByShortCode (shortCode u)
    (updateUrlStatus env (shortCode u) (JBool false) s).2 = None.
Proof.
  intros Hwf [i Hi]%list_elem_of_lookup_1.
  pose proof (wf_lookup_trim s i u Hwf Hi) as Htr.
  rewrite (updateUrlStatus_stored env s i u false Hwf Hi).
  apply findByShortCode_None. rewrite Htr.
  destruct (isActive u) eqn:Ha; simpl.
  - intros v [j Hj]%list_elem_of_lookup_1 Hc.
    apply list_lookup_insert_Some in Hj as [(-> & <- & _)|[Hne Hj]]; [done|].
    destruct Hne. eapply codes_lookup_inj; eauto. apply Hwf.
  - intros v [j Hj]%list_elem_of_lookup_1 Hc.
    assert (i = j) as <- by (eapply codes_lookup_inj; eauto; apply Hwf).
    congruence.
Qed.

End Handlers.

(** ** The sample collections are states of the service *)

Lemma sample_active_reachable :
  reachable [sampleDoc "http://a.io/x" "abc12" true 0].
Proof.
  assert ((serve (Shorten (sampleEnv 0 "abc12")
                    (sampleBody "http://a.io/x" (Some 1%Z) JUndefined)) []).2
          = [sampleDoc "http://a.io/x" "abc12" true 0]) as <-
    by (by vm_compute).
  apply reachable_serve, reachable_empty.
Qed.

Lemma sample_inactive_reachable :
  reachable [sampleDoc "http://a.io/x" "abc12" false 10].
Proof.
  assert ((serve (SetActive (sampleEnv 10 "") (str "abc12") (JBool false))
             [sampleDoc "http://a.io/x" "abc12" true 0]).2
          = [sampleDoc "http://a.io/x" "abc12" false 10]) as <-
    by (by vm_compute).
  apply reachable_serve, sample_active_reachable.
Qed.

(** ** Redirection, statistics and the admin operations, as specified *)

Section HandlerProperties.
Import Helpers Url Controller.

Implicit Types (s : list doc) (u v : doc) (c : jsstring) (env : Env).

Lemma wf_singleton u : trim (shortCode u) = shortCode u → wf [u].
Proof.
  intros H. split; [apply NoDup_singleton | by repeat constructor].
Qed.

(** C1, as the code has it.  For every stored document, after
    [updateUrlStatus(code, false)] the redirect of its code answers
    404 not-found and leaves the collection as it is, and so does the
    statistics handler: both go through [findByShortCode], whose
    filter has [isActive: true].  Statistics are served, with all ten
    fields, only for a document that is active, expired or not. *)
Theorem deactivated_hidden_from_redirect_and_stats env env1 env2 s u :
  wf s → u ∈ s →
  (let s' := (updateUrlStatus env (shortCode u) (JBool false) s).2 in
   redirectToUrl env1 (shortCode u) s' = (Json 404 (NotFound (shortCode u)), s')
   ∧ getUrlStats env2 (shortCode u) s' = Json 404 (NotFound (shortCode u)))
  ∧ getUrlStats env2 (shortCode u) s =
      if isActive u
      then Json 200 (Stats
             {| st_shortCode := shortCode u; st_originalUrl := originalUrl u;
                st_clicks := clicks u; st_validity := validity u;
                st_expiry := expiry u; st_isExpired := isExpired env2 u;
                st_isActive := true; st_createdAt := createdAt u;
                st_lastAccessed := lastAccessed u;
                st_timeRemaining := timeRemaining env2 u |})
      else Json 404 (NotFound (shortCode u)).
Proof.
  intros Hwf Hu. split.
  - pose proof (deactivated_no_active_holder env s u Hwf Hu) as Hnone.
    cbv zeta. unfold redirectToUrl, getUrlStats. by rewrite Hnone.
  - apply list_elem_of_lookup_1 in Hu as [i Hi].
    unfold getUrlStats. rewrite (findByShortCode_stored s i u Hwf Hi).
    destruct (isActive u) eqn:Ha; [|done]. by rewrite Ha.
Qed.


(** The guard on the type of [isActive]. *)
Lemma updateUrlStatus_not_boolean env c x s :
  isBoolean x = false → updateUrlStatus env c x s = (Json 400 NotBoolean, s).
Proof. by destruct x. Qed.

Lemma delete_holder_gone s i u v :
  NoDup (shortCode <$> s) → s !! i = Some u →
  v ∈ delete i s → shortCode v ≠ shortCode u.
Proof.
  intros Hnd Hi [j Hj]%list_elem_of_lookup_1 Hc.
  rewrite list_lookup_delete in Hj. case_decide as Hlt.
  - assert (i = j) by (eapply codes_lookup_inj; eauto). lia.
  - assert (i = S j) by (eapply codes_lookup_inj; eauto). lia.
Qed.

(** C3, as the code has it.  [deleteUrl] removes the document of the
    code whenever that document is active, whatever its expiry (the
    handler does not read the clock), and answers with its summary;
    afterwards no document holds the code.  It answers 404 not-found
    exactly when no active document holds the code, and then leaves the
    collection as it is: the pre-find hook hides an inactive document
    from [findOneAndDelete]. *)
Theorem deleteUrl_active_only s c :
  wf s →
  (∀ u, u ∈ s → shortCode u = trim c → isActive u = true →
     ∃ i, s !! i = Some u
       ∧ deleteUrl c s
         = (Json 200 (Deleted (shortCode u) (originalUrl u)
                        (createdAt u) (clicks u)), delete i s)
       ∧ ∀ v, v ∈ delete i s → shortCode v ≠ shortCode u)
  ∧ ((deleteUrl c s).1 = Json 404 (NotFound c)
     ↔ ∀ u, u ∈ s → shortCode u = trim c → isActive u = false)
  ∧ ((deleteUrl c s).1 = Json 404 (NotFound c) → (deleteUrl c s).2 = s).
Proof.
  intros Hwf. unfold deleteUrl, findOneAndDelete.
  change {| f_originalUrl := None; f_shortCode := Some c;
            f_isActive := None; f_expiry := None |} with (byShortCode c).
  rewrite findOne_byShortCode. split_and!.
  - intros u [i Hi]%list_elem_of_lookup_1 Hc Ha. exists i.
    rewrite (findByShortCode_holder c s i u (proj1 Hwf) Hi Hc), Ha.
    split_and!; [done..|]. intros v.
    by apply (delete_holder_gone s i u v (proj1 Hwf)).
  - rewrite <- findByShortCode_None.
    by destruct (findByShortCode c s) as [[i u]|].
  - by destruct (findByShortCode c s) as [[i u]|].
Qed.

Lemma deleteUrl_wf s c : wf s → wf (deleteUrl c s).2.
Proof.
  intros Hwf. unfold deleteUrl, findOneAndDelete.
  destruct (findOne _ s) as [[i u]|]; [|done]. by apply wf_delete.
Qed.

Lemma redirectToUrl_wf env s c : wf s → wf (redirectToUrl env c s).2.
Proof.
  intros Hwf. unfold redirectToUrl.
  destruct (findByShortCode c s) as [[i u]|] eqn:E; [|done].
  apply findByShortCode_Some in E as (Hi & _ & _).
  destruct (isExpired env u); [done|].
  destruct (negb (isActive u)); [done|].
  unfold incrementClicks.
  destruct (clicks (clicked env u) <? 0)%Z; [done|]. simpl.
  by eapply wf_insert.
Qed.

(** The redirect of a stored document that is active and not expired:
    one more click, [lastAccessed] set to the clock, a 301 to the
    original URL. *)
Lemma redirect_valid env s i u :
  wf s → s !! i = Some u → isValidForRedirect env u = true →
  (0 <= clicks u)%Z →
  redirectToUrl env (shortCode u) s
  = (Redirect 301 (originalUrl u), <[i := clicked env u]> s).
Proof.
  intros Hwf Hi [Ha He%negb_true_iff]%andb_true_iff Hc.
  unfold redirectToUrl.
  rewrite (findByShortCode_stored s i u Hwf Hi), Ha, He. simpl.
  unfold incrementClicks, clicked at 1. cbn [clicks].
  destruct (Z.ltb_spec (clicks u + 1) 0) as [?|_]; [lia | by rewrite Ha].
Qed.

End HandlerProperties.

Lemma deactivated_hidden_from_redirect_and_stats_witness :
  let u := sampleDoc "http://a.io/x" "abc12" true 0 in
  let env := sampleEnv 20 "" in
  wf [u] ∧ u ∈ [u]
  ∧ Controller.redirectToUrl env (str "abc12")
      (Controller.updateUrlStatus env (str "abc12") (JBool false) [u]).2
    = (Controller.Json 404 (Controller.NotFound (str "abc12")),
       [Url.setIsActive env false u]).
Proof.
  pose (u := sampleDoc "http://a.io/x" "abc12" true 0).
  pose (env := sampleEnv 20 "").
  assert (wf [u]) as Hwf by (by apply wf_singleton).
  assert (u ∈ [u]) as Hu by constructor.
  split; [exact Hwf|]. split; [exact Hu|].
  exact (proj1 (proj1
    (deactivated_hidden_from_redirect_and_stats env env env [u] u Hwf Hu))).
Defined.

(** C1, as stated, fails: after the deactivation of a stored document
    the statistics handler answers 404, though the document is still in
    the collection. *)
Lemma stats_after_deactivation_not_found :
  let u := sampleDoc "http://a.io/x" "abc12" true 0 in
  let env := sampleEnv 20 "" in
  let s' := (Controller.updateUrlStatus env (str "abc12") (JBool false) [u]).2 in
  reachable [u]
  ∧ s' = [Url.setIsActive env false u]
  ∧ Controller.getUrlStats env (str "abc12") s'
    = Controller.Json 404 (Controller.NotFound (str "abc12")).
Proof. split; [apply sample_active_reachable | by vm_compute]. Qed.




(** C2 at the input where the code departs from it: the activation of
    a stored, inactive document answers 404 and changes nothing, the
    pre-find hook having hidden the document from [findOneAndUpdate]. *)
Theorem activation_of_inactive_not_found :
  let u := sampleDoc "http://a.io/x" "abc12" false 10 in
  let env := sampleEnv 20 "" in
  reachable [u]
  ∧ Controller.updateUrlStatus env (Url.shortCode u) (JBool true) [u]
    = (Controller.Json 404 (Controller.NotFound (str "abc12")), [u]).
Proof. split; [apply sample_inactive_reachable | by vm_compute]. Qed.

Lemma deleteUrl_active_only_witness :
  let u := sampleDoc "http://a.io/x" "abc12" true 0 in
  wf [u]
  ∧ ∃ i, [u] !! i = Some u
      ∧ Controller.deleteUrl (str "abc12") [u]
        = (Controller.Json 200
             (Controller.Deleted (str "abc12") (str "http://a.io/x") 0 0),
           delete i [u]).
Proof.
  pose (u := sampleDoc "http://a.io/x" "abc12" true 0).
  assert (wf [u]) as Hwf by (by apply wf_singleton).
  split; [exact Hwf|].
  destruct (proj1 (deleteUrl_active_only [u] (str "abc12") Hwf) u)
    as (i & Hi & Hd & _); [constructor | reflexivity | reflexivity |].
  exists i. split; [exact Hi | exact Hd].
Defined.

(** C3, as stated, fails: a stored document that is inactive is not
    deleted, and the answer is 404 although the document is present. *)
Lemma delete_inactive_not_found :
  let u := sampleDoc "http://a.io/x" "abc12" false 10 in
  reachable [u]
  ∧ Controller.deleteUrl (Url.shortCode u) [u]
    = (Controller.Json 404 (Controller.NotFound (str "abc12")), [u]).
Proof. split; [apply sample_inactive_reachable | by vm_compute]. Qed.

(** ** The listing *)

Section Listing.
Import Helpers Url Controller.

Implicit Types (s l : list doc) (u v : doc) (env : Env).

Lemma sort_Permutation name direction l : Url.sort name direction l ≡ₚ l.
Proof. apply merge_sort_Permutation. Qed.

Lemma skip_subseteq n l : Url.skip n l ⊆ l.
Proof. apply subseteq_drop. Qed.

Lemma limit_subseteq n l : Url.limit n l ⊆ l.
Proof.
  unfold Url.limit. destruct (n =? 0)%Z; [done|].
  apply sublist_subseteq, sublist_take.
Qed.

(** What the hook makes of a filter that does not mention [isActive]. *)
Lemma find_hooked q s u :
  f_isActive q = None → u ∈ find q s → u ∈ s ∧ isActive u = true.
Proof.
  intros Hq. unfold find. rewrite list_elem_of_filter.
  intros [Hm Hu]. split; [done|].
  apply Is_true_true in Hm. unfold matches, preFind, castFilter in Hm.
  simpl in Hm. rewrite Hq in Hm. simpl in Hm.
  rewrite !andb_true_iff in Hm. destruct Hm as [[_ Hm] _].
  by destruct (isActive u).
Qed.

(** Whatever the page, limit, sort field, sort order and
    [includeExpired], every document of a listing is a stored document
    whose [isActive] is true: the handler's filter never mentions
    [isActive], so the pre-find hook adds [isActive: {$ne: false}] to
    the [find] query. *)
Lemma getAllUrls_only_active env rq s urls pages :
  getAllUrls env rq s = Json 200 (Listing urls pages) →
  ∀ u, u ∈ urls → u ∈ s ∧ isActive u = true.
Proof.
  unfold getAllUrls.
  destruct ((page rq - 1) * Controller.limit rq <? 0)%Z; [done|].
  intros [= <- _] u Hu.
  apply limit_subseteq, skip_subseteq in Hu.
  rewrite sort_Permutation in Hu.
  apply find_hooked in Hu; [done|].
  by destruct (includeExpired rq).
Qed.

End Listing.

(** C10 at the input where the code departs from it.  The documents
    of the listing come from [find], which the hook filters; the total
    comes from [countDocuments], which runs without the hook.  A
    collection of one inactive document lists nothing and reports one
    item on one page. *)
Theorem listing_total_counts_inactive :
  let b := sampleDoc "http://a.io/x" "abc12" false 10 in
  reachable [b]
  ∧ Controller.getAllUrls (sampleEnv 20 "") Controller.defaultListQuery [b]
  = Controller.Json 200
      (Controller.Listing []
         {| Controller.currentPage := 1;
            Controller.totalPages := Controller.Num 1;
            Controller.totalItems := 1;
            Controller.itemsPerPage := 10;
            Controller.hasNextPage := false;
            Controller.hasPrevPage := false |}).
Proof. split; [apply sample_inactive_reachable | by vm_compute]. Qed.

(** ** Shortening *)

Section Shortening.
Import Helpers Url Controller.

Implicit Types (s : list doc) (u v : doc) (c : jsstring) (env : Env).

Lemma generateLoop_S env s fuel k :
  generateLoop env s (S fuel) k
  = if maxAttempts <=? S k then Threw (S k)
    else match findByShortCode (generateShortCode env k) s with
         | Some _ => generateLoop env s fuel (S k)
         | None => Settled (generateShortCode env k) (S k)
         end.
Proof. reflexivity. Qed.

(** The loop entered after [k] calls, with the fuel that is left of
    [maxAttempts]: it settles on the first candidate that
    [findByShortCode] does not find, among those drawn before the call
    that reaches the bound, and throws at that call. *)
Lemma generateLoop_spec env s fuel k :
  k + fuel = maxAttempts → k < maxAttempts →
  match generateLoop env s fuel k with
  | Settled c n =>
      k < n ∧ n < maxAttempts ∧ c = generateShortCode env (n - 1)
      ∧ findByShortCode c s = None
      ∧ ∀ j, k ≤ j → j < n - 1 →
             is_Some (findByShortCode (generateShortCode env j) s)
  | Threw n =>
      n = maxAttempts
      ∧ ∀ j, k ≤ j → j < maxAttempts - 1 →
             is_Some (findByShortCode (generateShortCode env j) s)
  | Unfinished => False
  end.
Proof.
  revert k. induction fuel as [|fuel IH]; intros k Hk Hlt;
    [unfold maxAttempts in *; lia|].
  rewrite generateLoop_S.
  destruct (Nat.leb_spec maxAttempts (S k)) as [Hle|Hlt'];
    unfold maxAttempts in *.
  - split; [lia|]. intros j ? ?. lia.
  - destruct (findByShortCode (generateShortCode env k) s) as [x|] eqn:E.
    + specialize (IH (S k) ltac:(lia) ltac:(lia)).
      destruct (generateLoop env s fuel (S k)) as [c n|n|]; [| |done].
      * destruct IH as (? & ? & ? & ? & IH). split_and!; [lia|done..|].
        intros j ? ?. destruct (decide (j = k)) as [->|]; [by rewrite E|].
        apply IH; lia.
      * destruct IH as (? & IH). split; [done|].
        intros j ? ?. destruct (decide (j = k)) as [->|]; [by rewrite E|].
        apply IH; lia.
    + replace (S k - 1) with k by lia.
      split_and!; [lia|lia|done|done|]. intros j ? ?. lia.
Qed.

(** With [maxAttempts] iterations the loop finishes: on a code after at
    most nine calls, or by the throw at the tenth. *)
Lemma generateLoop_total env s :
  (∃ c n, generateLoop env s maxAttempts 0 = Settled c n
          ∧ 1 ≤ n ∧ n < maxAttempts)
  ∨ generateLoop env s maxAttempts 0 = Threw maxAttempts.
Proof.
  pose proof (generateLoop_spec env s maxAttempts 0 eq_refl) as H.
  specialize (H ltac:(unfold maxAttempts; lia)).
  destruct (generateLoop env s maxAttempts 0) as [c n|n|]; [| |done].
  - left. exists c, n. destruct H as (? & ? & _). split_and!; [done|lia|done].
  - right. by destruct H as [-> _].
Qed.

(** The throw, exactly: each of the first nine candidates is found. *)
Lemma generateLoop_exhausted env s :
  generateLoop env s maxAttempts 0 = Threw maxAttempts
  ↔ ∀ j, j < 9 → is_Some (findByShortCode (generateShortCode env j) s).
Proof.
  pose proof (generateLoop_spec env s maxAttempts 0 eq_refl) as H.
  specialize (H ltac:(unfold maxAttempts; lia)).
  destruct (generateLoop env s maxAttempts 0) as [c n|n|]; [| |done].
  - destruct H as (? & ? & -> & Hnone & _). split; [done|].
    intros Hall. unfold maxAttempts in *.
    destruct (Hall (n - 1)) as [x Hx]; [lia|]. congruence.
  - destruct H as [-> H]. split; [|done].
    intros _ j Hj. apply H; unfold maxAttempts; lia.
Qed.

(** Every way [createShortUrl] can end: nothing stored and a status
    other than 201, or one document appended, built from the sanitized
    URL and the chosen code, which no stored document held. *)
Lemma createShortUrl_outcome env body s r s' :
  createShortUrl env body s = (r, s') →
  (s' = s ∧ status r ≠ 201%Z)
  ∨ ∃ c,
      r = Json 201
            (Created (generateShortUrl env c)
               (calculateExpiryDate env (validityOrDefault (body_validity body)))
               c (sanitizeUrl (body_url body))
               (validityOrDefault (body_validity body)))
      ∧ s' = s ++ [create env (sanitizeUrl (body_url body)) c
                     (validityOrDefault (body_validity body))
                     (calculateExpiryDate env
                        (validityOrDefault (body_validity body)))]
      ∧ chooseShortCode env body s = inr c
      ∧ isValid (validateShortenRequest env body) = true
      ∧ ∀ u, u ∈ s → shortCode u ≠ trim c.
Proof.
  unfold createShortUrl.
  destruct (isValid (validateShortenRequest env body)) eqn:Hval; simpl;
    [|intros [= <- <-]; by left].
  destruct (validExisting env _) as [e|]; [intros [= <- <-]; by left|].
  destruct (chooseShortCode env body s) as [[sent|error]|c] eqn:Hc.
  - intros [= <- <-]. left. split; [done|].
    unfold chooseShortCode in Hc.
    destruct (truthy (body_shortcode body)).
    + destruct (findByShortCode _ s) as [[i e]|]; [|done].
      destruct (isValidForRedirect env e); [|done].
      by injection Hc as <-.
    + by destruct (generateLoop env s maxAttempts 0).
  - intros [= <- <-]. left. by destruct error as [|[]].
  - destruct (save _ s) as [[m|]|s1] eqn:Hs.
    + intros [= <- <-]. by left.
    + intros [= <- <-]. by left.
    + intros [= <- <-]. right. exists c.
      apply save_inr in Hs as (_ & Hfresh & ->). by split_and!.
Qed.

Lemma createShortUrl_wf env body s :
  wf s → wf (createShortUrl env body s).2.
Proof.
  intros Hwf.
  destruct (createShortUrl env body s) as [r s'] eqn:E.
  apply createShortUrl_outcome in E as [[-> _]|(c & _ & -> & _ & _ & Hfresh)];
    [done|].
  simpl. destruct Hwf as [Hnd Htr]. split.
  - rewrite fmap_app. apply NoDup_app. split_and!; [done| |apply NoDup_singleton].
    intros x (v & -> & Hv)%list_elem_of_fmap [= Hx]%list_elem_of_singleton.
    by apply (Hfresh v Hv).
  - apply Forall_app. split; [done|]. constructor; [|done].
    apply trim_idemp.
Qed.

(** Deduplication: the first active document with the sanitized URL,
    when it is valid for redirect, is answered and nothing is stored. *)
Lemma createShortUrl_dedup env body s i e :
  isValid (validateShortenRequest env body) = true →
  findOne (byOriginalUrl (sanitizeUrl (body_url body))) s = Some (i, e) →
  isValidForRedirect env e = true →
  createShortUrl env body s
  = (Json 200 (AlreadyShortened (generateShortUrl env (shortCode e))
                 (expiry e)), s).
Proof.
  intros Hval Hfind Hvalid. unfold byOriginalUrl in Hfind.
  unfold createShortUrl. rewrite Hval, Hfind. simpl. by rewrite Hvalid.
Qed.

(** Where no active document had the URL, the document the first
    request creates is the one a second request finds: while it is
    valid its code is answered and nothing more is stored. *)
Lemma createShortUrl_again env1 env2 body s r1 s1 :
  findOne (byOriginalUrl (sanitizeUrl (body_url body))) s = None →
  createShortUrl env1 body s = (r1, s1) → status r1 = 201%Z →
  isValid (validateShortenRequest env2 body) = true →
  ∃ u, s1 = s ++ [u]
    ∧ (isValidForRedirect env2 u = true →
       createShortUrl env2 body s1
       = (Json 200 (AlreadyShortened (generateShortUrl env2 (shortCode u))
                      (expiry u)), s1)).
Proof.
  intros Hnone Hcreate Hstatus Hval.
  apply createShortUrl_outcome in Hcreate
    as [[_ ?]|(c & _ & -> & _ & _ & _)]; [done|].
  eexists. split; [reflexivity|]. intros Hvalid.
  apply (createShortUrl_dedup env2 body _ (length s)); [done| |done].
  unfold findOne. apply list_find_Some. split_and!.
  - by rewrite list_lookup_middle.
  - apply Is_true_true.
    unfold matches, preFind, castFilter, byOriginalUrl, holds; simpl.
    by rewrite bool_decide_eq_true_2.
  - intros j v Hj Hlt. rewrite lookup_app_l in Hj by done.
    pose proof (proj1 (findOne_None _ _) Hnone v
                  (list_elem_of_lookup_2 _ _ _ Hj)) as Hv.
    rewrite Hv. by intros [].
Qed.

End Shortening.

(** ** Shortening, as specified *)

Section ShorteningProperties.
Import Helpers Url Controller.

Implicit Types (s : list doc) (u v : doc) (c : jsstring) (env : Env).

(** What a request that passed [validateShortenRequest] is known to
    carry. *)
Lemma validateShortenRequest_valid env body :
  isValid (validateShortenRequest env body) = true →
  truthy (body_url body) = true
  ∧ isValidUrl env (sanitizeUrl (body_url body)) = true
  ∧ (∀ c, body_shortcode body = JStr c → isValidShortCode (JStr c) = true).
Proof.
  unfold validateShortenRequest. simpl. rewrite bool_decide_eq_true.
  intros [H1 [_ H3]%app_eq_nil]%app_eq_nil. split_and!.
  - by destruct (truthy (body_url body)).
  - destruct (truthy (body_url body)); [|done]. simpl in H1.
    by destruct (isValidUrl env _).
  - intros c Hc. rewrite Hc in H3.
    by destruct (isValidShortCode (JStr c)).
Qed.

Lemma isValidShortCode_str c :
  isValidShortCode (JStr c) = true →
  trim c = c ∧ truthy (JStr c) = true.
Proof.
  unfold isValidShortCode. simpl.
  case_bool_decide as Hc; simpl; [done|].
  intros [[Hp _]%andb_true_iff _]%andb_true_iff.
  split; [by apply validPattern_trim | done].
Qed.

(** The branches of the custom-code path, for a request that reaches
    it and whose document passes the schema: decided by the stored
    document that holds the code, if there is one. *)
Lemma custom_code_outcome env body s c :
  wf s →
  isValid (validateShortenRequest env body) = true →
  body_shortcode body = JStr c →
  validExisting env (findOne (byOriginalUrl (sanitizeUrl (body_url body))) s)
    = None →
  validate (create env (sanitizeUrl (body_url body)) c
              (validityOrDefault (body_validity body))
              (calculateExpiryDate env
                 (validityOrDefault (body_validity body)))) = [] →
  createShortUrl env body s =
    match list_find (fun u => shortCode u = c) s with
    | Some (_, u) =>
        if isValidForRedirect env u then (Json 400 CustomCodeActive, s)
        else (Json 409 ShortCodeExists, s)
    | None =>
        (Json 201
           (Created (generateShortUrl env c)
              (calculateExpiryDate env (validityOrDefault (body_validity body)))
              c (sanitizeUrl (body_url body))
              (validityOrDefault (body_validity body))),
         s ++ [create env (sanitizeUrl (body_url body)) c
                 (validityOrDefault (body_validity body))
                 (calculateExpiryDate env
                    (validityOrDefault (body_validity body)))])
    end.
Proof.
  intros Hwf Hval Hbody Hdedup Hschema.
  destruct (validateShortenRequest_valid env body Hval) as (_ & _ & Hcode).
  destruct (isValidShortCode_str c (Hcode c Hbody)) as [Htrim Htruthy].
  unfold byOriginalUrl in Hdedup.
  unfold createShortUrl. rewrite Hval, Hdedup. simpl.
  unfold chooseShortCode. rewrite Hbody, Htruthy. simpl.
  destruct (list_find (fun u => shortCode u = c) s) as [[i u]|] eqn:Hfind.
  - apply list_find_Some in Hfind as (Hi & Hc & _).
    assert (save (create env (sanitizeUrl (body_url body)) c
              (validityOrDefault (body_validity body))
              (calculateExpiryDate env
                 (validityOrDefault (body_validity body)))) s
            = inl DuplicateKey) as Hsave.
    { apply save_DuplicateKey. split; [done|]. exists u.
      split; [by eapply list_elem_of_lookup_2|].
      simpl. unfold castShortCode. congruence. }
    rewrite (findByShortCode_holder c s i u (proj1 Hwf) Hi) by congruence.
    unfold isValidForRedirect.
    destruct (isActive u) eqn:Ha; simpl; rewrite ?Ha; simpl.
    + destruct (isExpired env u); simpl; [|done]. by rewrite Hsave.
    + by rewrite Hsave.
  - apply list_find_None in Hfind. rewrite Forall_forall in Hfind.
    assert (findByShortCode c s = None) as ->.
    { apply findByShortCode_None. intros v Hv Hcv.
      destruct (Hfind v Hv). congruence. }
    assert (save (create env (sanitizeUrl (body_url body)) c
              (validityOrDefault (body_validity body))
              (calculateExpiryDate env
                 (validityOrDefault (body_validity body)))) s
            = inr (s ++ [create env (sanitizeUrl (body_url body)) c
                 (validityOrDefault (body_validity body))
                 (calculateExpiryDate env
                    (validityOrDefault (body_validity body)))])) as ->; [|done].
    apply save_inr. split_and!; [done| |done].
    intros v Hv. simpl. unfold castShortCode. rewrite Htrim. by apply Hfind.
Qed.

(** The branches of the custom-code path for a request that reaches
    it, whether its document passes the schema or not: the controller
    looks at the holder of the code first, [save] validates, and the
    unique index comes last. *)
Lemma custom_code_branches env body s c :
  wf s →
  isValid (validateShortenRequest env body) = true →
  body_shortcode body = JStr c →
  validExisting env (findOne (byOriginalUrl (sanitizeUrl (body_url body))) s)
    = None →
  createShortUrl env body s =
    let new := create env (sanitizeUrl (body_url body)) c
                 (validityOrDefault (body_validity body))
                 (calculateExpiryDate env
                    (validityOrDefault (body_validity body))) in
    match list_find (fun u => shortCode u = c) s with
    | Some (_, u) =>
        if isValidForRedirect env u then (Json 400 CustomCodeActive, s)
        else match validate new with
             | [] => (Json 409 ShortCodeExists, s)
             | messages => (Json 400 (ValidationErrorBody messages), s)
             end
    | None =>
        match validate new with
        | [] =>
            (Json 201
               (Created (generateShortUrl env c)
                  (calculateExpiryDate env
                     (validityOrDefault (body_validity body)))
                  c (sanitizeUrl (body_url body))
                  (validityOrDefault (body_validity body))),
             s ++ [new])
        | messages => (Json 400 (ValidationErrorBody messages), s)
        end
    end.
Proof.
  intros Hwf Hval Hbody Hdedup. cbv zeta.
  destruct (validateShortenRequest_valid env body Hval) as (_ & _ & Hcode).
  destruct (isValidShortCode_str c (Hcode c Hbody)) as [Htrim Htruthy].
  unfold byOriginalUrl in Hdedup.
  unfold createShortUrl. rewrite Hval, Hdedup. simpl.
  unfold chooseShortCode. rewrite Hbody, Htruthy. simpl.
  set (new := create env (sanitizeUrl (body_url body)) c
                (validityOrDefault (body_validity body))
                (calculateExpiryDate env
                   (validityOrDefault (body_validity body)))).
  assert (shortCode new = c) as Hnew by (simpl; by unfold castShortCode).
  assert (∀ holder : bool,
            (holder = true ↔ ∃ v, v ∈ s ∧ shortCode v = c) →
            save new s
            = match validate new with
              | [] => if holder then inl DuplicateKey else inr (s ++ [new])
              | messages => inl (ValidationError messages)
              end) as Hsave.
  { intros holder Hholder. unfold save.
    destruct (validate new) as [|m ms]; [|done].
    rewrite Hnew. case_bool_decide as Hin.
    - apply list_elem_of_fmap in Hin as (v & Hin & Hv).
      rewrite (proj2 Hholder) by (by exists v). done.
    - destruct holder; [|done].
      destruct (proj1 Hholder eq_refl) as (v & Hv & Hcv).
      destruct Hin. apply list_elem_of_fmap. by exists v. }
  destruct (list_find (fun u => shortCode u = c) s) as [[i u]|] eqn:Hfind.
  - apply list_find_Some in Hfind as (Hi & Hc & _).
    assert (u ∈ s) as Hu by (by eapply list_elem_of_lookup_2).
    rewrite (findByShortCode_holder c s i u (proj1 Hwf) Hi) by congruence.
    specialize (Hsave true (conj (fun _ => ex_intro _ u (conj Hu Hc))
                                  (fun _ => eq_refl))).
    unfold isValidForRedirect.
    destruct (isActive u) eqn:Ha; simpl; rewrite ?Ha; simpl.
    + destruct (isExpired env u); simpl; [|done].
      fold new. rewrite Hsave. by destruct (validate new).
    + fold new. rewrite Hsave. by destruct (validate new).
  - apply list_find_None in Hfind. rewrite Forall_forall in Hfind.
    assert (findByShortCode c s = None) as ->.
    { apply findByShortCode_None. intros v Hv Hcv.
      destruct (Hfind v Hv). congruence. }
    fold new. rewrite (Hsave false); [by destruct (validate new)|].
    split; [done|]. intros (v & Hv & Hcv). by destruct (Hfind v Hv).
Qed.

(** C5, as the code has it.  For a request with a custom code that
    reaches the custom-code step (it passed validation and no valid
    document has its URL), on a collection that satisfies the unique
    index: the controller refuses it, with 400, exactly when a stored
    document with the code is active and unexpired.  A holder that is
    expired or inactive blocks the reuse too: the unique index refuses
    the request, with 409, exactly when there is such a holder and the
    new document passes the schema; the save answers the 400 of the
    schema exactly when no valid holder is there and the new document
    fails the schema.  A document is created, with 201, exactly when
    no stored document holds the code and the new document passes the
    schema; whenever a stored document holds the code, nothing is
    created. *)
Theorem custom_code_conflict env body s c :
  wf s →
  isValid (validateShortenRequest env body) = true →
  body_shortcode body = JStr c →
  validExisting env (findOne (byOriginalUrl (sanitizeUrl (body_url body))) s)
    = None →
  let new := create env (sanitizeUrl (body_url body)) c
               (validityOrDefault (body_validity body))
               (calculateExpiryDate env
                  (validityOrDefault (body_validity body))) in
  (createShortUrl env body s = (Json 400 CustomCodeActive, s)
   ↔ ∃ u, u ∈ s ∧ shortCode u = c ∧ isValidForRedirect env u = true)
  ∧ (createShortUrl env body s = (Json 409 ShortCodeExists, s)
     ↔ validate new = []
       ∧ ∃ u, u ∈ s ∧ shortCode u = c ∧ isValidForRedirect env u = false)
  ∧ (createShortUrl env body s
     = (Json 400 (ValidationErrorBody (validate new)), s)
     ↔ validate new ≠ []
       ∧ ∀ u, u ∈ s → shortCode u = c → isValidForRedirect env u = false)
  ∧ (createShortUrl env body s
     = (Json 201
          (Created (generateShortUrl env c)
             (calculateExpiryDate env (validityOrDefault (body_validity body)))
             c (sanitizeUrl (body_url body))
             (validityOrDefault (body_validity body))),
        s ++ [new])
     ↔ validate new = [] ∧ ∀ u, u ∈ s → shortCode u ≠ c)
  ∧ ((∃ u, u ∈ s ∧ shortCode u = c) →
     status (createShortUrl env body s).1 ≠ 201%Z
     ∧ (createShortUrl env body s).2 = s).
Proof.
  intros Hwf Hval Hbody Hdedup new.
  rewrite (custom_code_branches env body s c Hwf Hval Hbody Hdedup).
  cbv zeta. fold new.
  destruct (list_find (fun u => shortCode u = c) s) as [[i u]|] eqn:Hfind.
  - apply list_find_Some in Hfind as (Hi & Hc & _).
    assert (u ∈ s) as Hu by by eapply list_elem_of_lookup_2.
    assert (∀ v, v ∈ s → shortCode v = c →
                 isValidForRedirect env v = isValidForRedirect env u)
      as Huniq.
    { intros v [j Hj]%list_elem_of_lookup_1 Hv.
      assert (i = j) as <-
        by (eapply codes_lookup_inj; eauto; [apply Hwf | congruence]).
      congruence. }
    assert (¬ ∀ v, v ∈ s → shortCode v ≠ c) as Hheld
      by (intros H; by destruct (H u Hu)).
    destruct (isValidForRedirect env u) eqn:Hvalid;
      [|destruct (validate new) as [|m ms] eqn:Hschema]; simpl;
      (split_and!; [split|split|split|split|done]); try done;
      try (by exists u); try (by intros [? ?]);
      try (by intros (v & Hv & Hcv & Hvv); rewrite (Huniq v Hv Hcv) in Hvv);
      try (by intros [_ (v & Hv & Hcv & Hvv)];
              rewrite (Huniq v Hv Hcv) in Hvv);
      try (by intros [_ H]; rewrite (H u Hu Hc) in Hvalid).
    all: intros _; split; [done|]; first [by exists u | by apply Huniq].
  - apply list_find_None in Hfind. rewrite Forall_forall in Hfind.
    assert (¬ ∃ v, v ∈ s ∧ shortCode v = c) as Hfree
      by (intros (v & Hv & Hcv); by destruct (Hfind v Hv)).
    destruct (validate new) as [|m ms] eqn:Hschema; simpl;
      (split_and!; [split|split|split|split|by intros ?]); try done;
      try (by intros [? ?]);
      try (by intros (v & Hv & Hcv & _); destruct Hfree; exists v);
      try (by intros [_ (v & Hv & Hcv & _)]; destruct Hfree; exists v).
    all: intros _; split; [done|]; intros v Hv Hcv; destruct Hfree; by exists v.
Qed.

(** What the generation loop does guarantee.  A candidate is taken for
    a collision exactly when an active stored document holds it, expired
    or not; the code the loop settles on is held by no active document,
    and every candidate before it was held by one.  The code of a
    document that is created was held by no stored document at all. *)
Lemma generateLoop_avoids_active env s :
  (∀ c, is_Some (findByShortCode c s)
        ↔ ∃ u, u ∈ s ∧ shortCode u = trim c ∧ isActive u = true)
  ∧ (∀ c n, generateLoop env s maxAttempts 0 = Settled c n →
       c = generateShortCode env (n - 1)
       ∧ (∀ u, u ∈ s → isActive u = true → shortCode u ≠ trim c)
       ∧ ∀ j, j < n - 1 →
           ∃ u, u ∈ s ∧ shortCode u = trim (generateShortCode env j)
                ∧ isActive u = true)
  ∧ (∀ body r s',
       truthy (body_shortcode body) = false →
       createShortUrl env body s = (r, s') → status r = 201%Z →
       ∃ c n, generateLoop env s maxAttempts 0 = Settled c n
              ∧ s' = s ++ [create env (sanitizeUrl (body_url body)) c
                             (validityOrDefault (body_validity body))
                             (calculateExpiryDate env
                                (validityOrDefault (body_validity body)))]
              ∧ ∀ u, u ∈ s → shortCode u ≠ trim c).
Proof.
  split_and!.
  - intros c. apply findByShortCode_is_Some.
  - intros c n Hloop.
    pose proof (generateLoop_spec env s maxAttempts 0 eq_refl) as H.
    specialize (H ltac:(unfold maxAttempts; lia)).
    rewrite Hloop in H. destruct H as (_ & _ & Hc & Hnone & Hbefore).
    split_and!; [done| |].
    + intros u Hu Ha Hcu.
      pose proof (proj1 (findByShortCode_None c s) Hnone u Hu Hcu).
      congruence.
    + intros j Hj. apply findByShortCode_is_Some, Hbefore; lia.
  - intros body r s' Hno Hcreate Hstatus.
    apply createShortUrl_outcome in Hcreate
      as [[_ ?]|(c & _ & -> & Hchoice & _ & Hfresh)]; [done|].
    unfold chooseShortCode in Hchoice. rewrite Hno in Hchoice.
    destruct (generateLoop env s maxAttempts 0) as [c' n|n|] eqn:Hloop;
      [|done..].
    injection Hchoice as ->. by exists c, n.
Qed.

(** C6.  The loop always finishes, after at most ten calls of the
    generator.  It gives up exactly when each of the first nine
    candidates is found by [findByShortCode], in particular when all
    ten would be: the tenth call reaches the bound.  The request then
    ends with the 500 of the generation error, and that response, like
    every 500 of the handler, leaves the collection as it is. *)
Theorem generation_bounded env body s :
  generateLoop env s maxAttempts 0 ≠ Unfinished
  ∧ attemptsMade (generateLoop env s maxAttempts 0) ≤ 10
  ∧ (generateLoop env s maxAttempts 0 = Threw 10
     ↔ ∀ j, j < 9 → is_Some (findByShortCode (generateShortCode env j) s))
  ∧ (isValid (validateShortenRequest env body) = true →
     validExisting env
       (findOne (byOriginalUrl (sanitizeUrl (body_url body))) s) = None →
     truthy (body_shortcode body) = false →
     generateLoop env s maxAttempts 0 = Threw 10 →
     createShortUrl env body s
     = (Json 500 (InternalServerError
          (Some "Unable to generate unique short code. Please try again."%string)),
        s))
  ∧ (∀ message s',
       createShortUrl env body s = (Json 500 (InternalServerError message), s')
       → s' = s).
Proof.
  split_and!.
  - by destruct (generateLoop_total env s) as [(c & n & -> & _)| ->].
  - destruct (generateLoop_total env s) as [(c & n & -> & _ & Hn)| ->];
      unfold maxAttempts in *; simpl; lia.
  - apply generateLoop_exhausted.
  - intros Hval Hdedup Hno Hthrew. unfold byOriginalUrl in Hdedup.
    unfold createShortUrl. rewrite Hval, Hdedup. simpl.
    unfold chooseShortCode. by rewrite Hno, Hthrew.
  - intros message s' [[-> _]|(c & ? & _)]%createShortUrl_outcome; done.
Qed.


End ShorteningProperties.

Lemma custom_code_conflict_witness :
  let holder := sampleDoc "http://a.io/x" "abc12" false 10 in
  let env := sampleEnv 20 "" in
  let body := sampleBody "http://b.io/y" None (JStr (str "abc12")) in
  let shouting := sampleBody "HTTP://b.io/y" None (JStr (str "abc12")) in
  wf [holder]
  ∧ Helpers.isValid (Helpers.validateShortenRequest env body) = true
  ∧ Controller.createShortUrl env body [holder]
    = (Controller.Json 409 Controller.ShortCodeExists, [holder])
  ∧ Controller.createShortUrl env shouting []
    = (Controller.Json 400
         (Controller.ValidationErrorBody
            ["Please provide a valid URL starting with http:// or https://"%string]),
       []).
Proof.
  pose (holder := sampleDoc "http://a.io/x" "abc12" false 10).
  pose (env := sampleEnv 20 "").
  pose (body := sampleBody "http://b.io/y" None (JStr (str "abc12"))).
  pose (shouting := sampleBody "HTTP://b.io/y" None (JStr (str "abc12"))).
  assert (wf [holder]) as Hwf by (by apply wf_singleton).
  split; [exact Hwf|]. split; [reflexivity|]. split.
  - apply (proj2 (proj1 (proj2
      (custom_code_conflict env body [holder] (str "abc12") Hwf
         eq_refl eq_refl eq_refl)))).
    split; [reflexivity|].
    exists holder. split_and!; [constructor | reflexivity | reflexivity].
  - apply (proj2 (proj1 (proj2 (proj2
      (custom_code_conflict env shouting [] (str "abc12") wf_nil
         eq_refl eq_refl eq_refl))))).
    split; [discriminate|]. intros u Hu. by apply elem_of_nil in Hu.
Defined.

(** C5, as stated, fails: the code of a stored document that is active
    but expired, hence not valid for redirect, is refused all the same,
    with the 409 of the unique index, and no document is created. *)
Lemma custom_code_of_expired_refused :
  let holder := sampleDoc "http://a.io/x" "abc12" true 0 in
  let env := sampleEnv 100000 "" in
  let body := sampleBody "http://b.io/y" None (JStr (str "abc12")) in
  reachable [holder]
  ∧ Url.isValidForRedirect env holder = false
  ∧ Controller.createShortUrl env body [holder]
    = (Controller.Json 409 Controller.ShortCodeExists, [holder]).
Proof. split; [apply sample_active_reachable | by vm_compute]. Qed.

(** C4 at the input where the code departs from it.  The collection
    holds an inactive document under [abc12]; the generator answers
    [abc12] first and [new01], which no document holds, afterwards.
    The loop does not take [abc12] for a collision: it settles on it at
    the first attempt, the request ends with the 409 of the unique
    index, and nothing is created.  Were the holder active, the loop
    would go on to [new01]. *)
Theorem generated_code_of_inactive_holder :
  let held := sampleDoc "http://a.io/x" "abc12" false 10 in
  let active := sampleDoc "http://a.io/x" "abc12" true 0 in
  let env := sampleEnvThen 20 "abc12" "new01" in
  let body := sampleBody "http://b.io/y" None JUndefined in
  reachable [held]
  ∧ Url.shortCode held = generateShortCode env 0
  ∧ Controller.generateLoop env [held] Controller.maxAttempts 0
    = Controller.Settled (str "abc12") 1
  ∧ Controller.createShortUrl env body [held]
    = (Controller.Json 409 Controller.ShortCodeExists, [held])
  ∧ Controller.generateLoop env [active] Controller.maxAttempts 0
    = Controller.Settled (str "new01") 2.
Proof. split; [apply sample_inactive_reachable | by vm_compute]. Qed.

Lemma generation_bounded_witness :
  let old := sampleDoc "http://a.io/x" "old01" true 0 in
  let env := sampleEnv 100000 "old01" in
  let body := sampleBody "http://b.io/y" None JUndefined in
  Controller.generateLoop env [old] Controller.maxAttempts 0
    = Controller.Threw 10
  ∧ Controller.createShortUrl env body [old]
    = (Controller.Json 500 (Controller.InternalServerError
         (Some "Unable to generate unique short code. Please try again."%string)),
       [old]).
Proof.
  pose (old := sampleDoc "http://a.io/x" "old01" true 0).
  pose (env := sampleEnv 100000 "old01").
  pose (body := sampleBody "http://b.io/y" None JUndefined).
  split; [reflexivity|].
  exact (proj1 (proj2 (proj2 (proj2 (generation_bounded env body [old]))))
           eq_refl eq_refl eq_refl eq_refl).
Defined.


(** C7 at the input where the code departs from it.  The collection
    holds an expired document for the URL, left by a request for a
    validity of one minute.  The next request does not take it for a
    valid one and creates a document under [new01]; the request after
    that, made while that document is active and unexpired, finds the
    expired one again, first in natural order, and creates a third
    document under another code. *)
Theorem shorten_twice_behind_expired :
  let old := sampleDoc "http://a.io/x" "old01" true 0 in
  let body := sampleBody "http://a.io/x" None JUndefined in
  let env1 := sampleEnv 100000 "new01" in
  let env2 := sampleEnv 200000 "new02" in
  let first := Controller.createShortUrl env1 body [old] in
  let second := Controller.createShortUrl env2 body first.2 in
  let created :=
    Url.create env1 (str "http://a.io/x") (str "new01") 30 1900000 in
  (serve (Shorten (sampleEnv 0 "old01")
            (sampleBody "http://a.io/x" (Some 1%Z) JUndefined)) []).2 = [old]
  ∧ first = (Controller.Json 201
               (Controller.Created (str "http://localhost:4000/new01") 1900000
                  (str "new01") (str "http://a.io/x") 30),
             [old; created])
  ∧ Url.isValidForRedirect env2 created = true
  ∧ second = (Controller.Json 201
                (Controller.Created (str "http://localhost:4000/new02") 2000000
                   (str "new02") (str "http://a.io/x") 30),
              [old; created;
               Url.create env2 (str "http://a.io/x") (str "new02") 30 2000000]).
Proof. by vm_compute. Qed.

(** ** The invariant of the collection *)

(** Every state the service reaches has pairwise distinct, trimmed
    short codes. *)
Lemma reachable_wf s : reachable s → wf s.
Proof.
  induction 1 as [|rq s _ IH]; [apply wf_nil|].
  destruct rq; simpl.
  - by apply createShortUrl_wf.
  - by apply redirectToUrl_wf.
  - by apply deleteUrl_wf.
  - by apply updateUrlStatus_wf.
Qed.


(** * Further properties of the service *)

(** ** Documents of the collection *)

Section Documents.
Import Helpers Url Controller.

Implicit Types (s : list doc) (u v : doc) (c : jsstring) (env : Env).

(** What the validators of the schema ask of a document. *)
Lemma validate_nil u :
  validate u = []
  ↔ originalUrl u ≠ [] ∧ originalUrlValidator (originalUrl u) = true
    ∧ length (originalUrl u) ≤ 2048
    ∧ shortCode u ≠ [] ∧ 3 ≤ length (shortCode u) ∧ length (shortCode u) ≤ 20
    ∧ (1 ≤ validity u)%Z ∧ (validity u ≤ 525600)%Z ∧ (0 ≤ clicks u)%Z.
Proof.
  unfold validate. rewrite !app_nil.
  assert (∀ (b : bool) (m : list string),
            m ≠ [] → (if b then m else []) = [] ↔ b = false) as Hif
    by (intros [] m Hm; intuition congruence).
  rewrite !Hif by done. rewrite !Z.ltb_ge.
  assert ((if bool_decide (originalUrl u = [])
           then ["Original URL is required"%string]
           else if negb (originalUrlValidator (originalUrl u))
                then ["Please provide a valid URL starting with http:// or https://"%string]
                else if 2048 <? length (originalUrl u)
                     then ["URL is too long"%string] else []) = []
          ↔ originalUrl u ≠ [] ∧ originalUrlValidator (originalUrl u) = true
            ∧ length (originalUrl u) ≤ 2048) as ->.
  { case_bool_decide; [intuition congruence|].
    destruct (originalUrlValidator (originalUrl u)); simpl;
      [|intuition congruence].
    rewrite Hif, Nat.ltb_ge by done. intuition congruence. }
  assert ((if bool_decide (shortCode u = [])
           then ["Short code is required"%string]
           else (if length (shortCode u) <? 3
                 then ["Short code must be at least 3 characters"%string]
                 else [])
                ++ (if 20 <? length (shortCode u)
                    then ["Short code cannot exceed 20 characters"%string]
                    else [])) = []
          ↔ shortCode u ≠ [] ∧ 3 ≤ length (shortCode u)
            ∧ length (shortCode u) ≤ 20) as ->.
  { case_bool_decide; [intuition congruence|].
    rewrite app_nil, !Hif, !Nat.ltb_ge by done. intuition. }
  intuition lia.
Qed.

Lemma sound_clicked env u :
  sound u → (0 ≤ clicks u + 1)%Z → sound (clicked env u).
Proof.
  intros (Hv & Ht) Hc. split; [|done].
  apply validate_nil. apply validate_nil in Hv. simpl. intuition lia.
Qed.

Lemma sound_setIsActive env b u : sound u → sound (setIsActive env b u).
Proof.
  intros (Hv & Ht). split; [|done].
  apply validate_nil. by apply validate_nil in Hv.
Qed.

End Documents.

(** ** The handlers, one request at a time *)

Section Service.
Import Helpers Url Controller.

Implicit Types (s : list doc) (u v : doc) (c : jsstring) (env : Env).

(** The hook at work on a filter that does not mention [isActive]:
    what [findOne] answers is active. *)
Lemma findOne_hooked_active q s i u :
  f_isActive q = None → findOne q s = Some (i, u) →
  s !! i = Some u ∧ isActive u = true.
Proof.
  intros Hq [Hi Hm]%findOne_Some. split; [done|].
  unfold matches, preFind, castFilter in Hm. simpl in Hm.
  rewrite Hq in Hm. simpl in Hm.
  rewrite !andb_true_iff in Hm. destruct Hm as [[_ Hm] _].
  by destruct (isActive u).
Qed.

(** A successful shortening, opened up: the code chosen and the save
    that went through. *)
Lemma createShortUrl_saved env body s r s' :
  createShortUrl env body s = (r, s') → status r = 201%Z →
  ∃ c,
    r = Json 201
          (Created (generateShortUrl env c)
             (calculateExpiryDate env (validityOrDefault (body_validity body)))
             c (sanitizeUrl (body_url body))
             (validityOrDefault (body_validity body)))
    ∧ save (create env (sanitizeUrl (body_url body)) c
              (validityOrDefault (body_validity body))
              (calculateExpiryDate env
                 (validityOrDefault (body_validity body)))) s = inr s'.
Proof.
  unfold createShortUrl.
  destruct (negb (isValid (validateShortenRequest env body)));
    [by intros [= <- <-]|].
  destruct (validExisting env _); [by intros [= <- <-]|].
  destruct (chooseShortCode env body s) as [[sent|error]|c] eqn:Hc.
  - intros [= <- <-] Hst. unfold chooseShortCode in Hc.
    destruct (truthy (body_shortcode body)).
    + destruct (findByShortCode _ s) as [[i e]|]; [|done].
      destruct (isValidForRedirect env e); [|done].
      by injection Hc as <-.
    + by destruct (generateLoop env s maxAttempts 0).
  - intros [= <- <-]. by destruct error as [|[]].
  - destruct (save _ s) as [[m|]|s1] eqn:Hs; intros [= <- <-]; try done.
    intros _. by exists c.
Qed.

Lemma sound_create env o c (m : Z) :
  validate (create env o c m (calculateExpiryDate env m)) = [] →
  sound (create env o c m (calculateExpiryDate env m)).
Proof.
  intros Hv. split; [done|]. simpl. apply trim_idemp.
Qed.

Lemma createShortUrl_sound env body s :
  Forall sound s → Forall sound (createShortUrl env body s).2.
Proof.
  intros Hs. destruct (createShortUrl env body s) as [r s'] eqn:E.
  destruct (decide (status r = 201%Z)) as [Hst|Hst].
  - destruct (createShortUrl_saved env body s r s' E Hst) as (c & _ & Hsave).
    apply save_inr in Hsave as (Hv & _ & ->). simpl.
    apply Forall_app. split; [done|]. constructor; [|done].
    by apply sound_create.
  - apply createShortUrl_outcome in E as [[-> _]|(c & -> & _)]; done.
Qed.

Lemma redirectToUrl_sound env c s :
  Forall sound s → Forall sound (redirectToUrl env c s).2.
Proof.
  intros Hs. unfold redirectToUrl.
  destruct (findByShortCode c s) as [[i u]|] eqn:E; [|done].
  apply findByShortCode_Some in E as (Hi & _ & _).
  destruct (isExpired env u); [done|].
  destruct (negb (isActive u)); [done|].
  unfold incrementClicks.
  destruct (Z.ltb_spec (clicks (clicked env u)) 0); [done|]. simpl.
  apply Forall_insert; [done|]. apply sound_clicked; [|done].
  by apply (Forall_lookup_1 _ _ _ _ Hs Hi).
Qed.

Lemma deleteUrl_sound c s : Forall sound s → Forall sound (deleteUrl c s).2.
Proof.
  intros Hs. unfold deleteUrl, findOneAndDelete.
  destruct (findOne _ s) as [[i u]|]; [|done]. by apply Forall_delete.
Qed.

Lemma updateUrlStatus_sound env c x s :
  Forall sound s → Forall sound (updateUrlStatus env c x s).2.
Proof.
  intros Hs. unfold updateUrlStatus. destruct x; try done.
  unfold findOneAndUpdate.
  destruct (findOne _ s) as [[i u]|] eqn:E; [|done].
  apply findOne_Some in E as [Hi _]. simpl.
  apply Forall_insert; [done|]. apply sound_setIsActive.
  by apply (Forall_lookup_1 _ _ _ _ Hs Hi).
Qed.

Lemma reachable_Forall_sound s : reachable s → Forall sound s.
Proof.
  induction 1 as [|rq s _ IH]; [constructor|].
  destruct rq; simpl.
  - by apply createShortUrl_sound.
  - by apply redirectToUrl_sound.
  - by apply deleteUrl_sound.
  - by apply updateUrlStatus_sound.
Qed.

(** X1.  Whatever requests were served, the short codes of the
    collection are pairwise distinct, and every document passes the
    schema: a URL that begins with [http://] or [https://] and has at
    most 2048 characters, a trimmed code of 3 to 20 characters, a
    validity of 1 to 525600 minutes, and a click counter that is not
    negative. *)
Theorem reachable_invariant s :
  reachable s →
  NoDup (shortCode <$> s)
  ∧ ∀ u, u ∈ s →
      originalUrlValidator (originalUrl u) = true
      ∧ length (originalUrl u) ≤ 2048
      ∧ trim (shortCode u) = shortCode u
      ∧ 3 ≤ length (shortCode u) ∧ length (shortCode u) ≤ 20
      ∧ (1 ≤ validity u)%Z ∧ (validity u ≤ 525600)%Z
      ∧ (0 ≤ clicks u)%Z.
Proof.
  intros Hr. split; [apply (reachable_wf s Hr)|].
  intros u Hu.
  pose proof (reachable_Forall_sound s Hr) as Hs.
  rewrite Forall_forall in Hs.
  destruct (Hs u Hu) as (Hv%validate_nil & Ht). intuition.
Qed.

(** X2.  The redirect of a stored document that is active and not
    expired answers 301 to its original URL, adds exactly one to its
    click counter, sets [lastAccessed] and, by the timestamps of the
    save, [updatedAt] to the clock, leaves its six other fields as
    they are, and touches no other document. *)
Theorem redirect_counts_one_click env s i u :
  wf s → s !! i = Some u → isValidForRedirect env u = true →
  (0 ≤ clicks u)%Z →
  (redirectToUrl env (shortCode u) s).1 = Redirect 301 (originalUrl u)
  ∧ (∃ u', (redirectToUrl env (shortCode u) s).2 !! i = Some u'
       ∧ clicks u' = (clicks u + 1)%Z
       ∧ lastAccessed u' = Some (now env)
       ∧ updatedAt u' = now env
       ∧ originalUrl u' = originalUrl u ∧ shortCode u' = shortCode u
       ∧ validity u' = validity u ∧ expiry u' = expiry u
       ∧ createdAt u' = createdAt u ∧ isActive u' = isActive u)
  ∧ length (redirectToUrl env (shortCode u) s).2 = length s
  ∧ ∀ j, j ≠ i → (redirectToUrl env (shortCode u) s).2 !! j = s !! j.
Proof.
  intros Hwf Hi Hvalid Hc.
  rewrite (redirect_valid env s i u Hwf Hi Hvalid Hc). simpl.
  split_and!; [done| |apply length_insert|].
  - exists (clicked env u). split; [|done].
    apply list_lookup_insert_eq. by eapply lookup_lt_Some.
  - intros j Hj. by apply list_lookup_insert_ne.
Qed.

(** X3.  The redirect never answers the "no longer active" body, the
    lookup having left inactive documents out; every answer other than
    the 301 leaves the collection as it is; and on a collection the
    service has reached it never answers 500. *)
Theorem redirect_outcomes env c s :
  (∀ c', (redirectToUrl env c s).1 ≠ Json 410 (NoLongerActive c'))
  ∧ ((∀ l, (redirectToUrl env c s).1 ≠ Redirect 301 l) →
     (redirectToUrl env c s).2 = s)
  ∧ (reachable s →
     ∀ m, (redirectToUrl env c s).1 ≠ Json 500 (InternalServerError m)).
Proof.
  unfold redirectToUrl.
  destruct (findByShortCode c s) as [[i u]|] eqn:E; [|by split_and!].
  apply findByShortCode_Some in E as (Hi & _ & Ha).
  destruct (isExpired env u); [by split_and!|].
  rewrite Ha. simpl. unfold incrementClicks.
  destruct (Z.ltb_spec (clicks (clicked env u)) 0) as [Hneg|Hpos]; simpl.
  - split_and!; [done..|]. intros Hr m _.
    pose proof (reachable_Forall_sound s Hr) as Hs.
    destruct (Forall_lookup_1 _ _ _ _ Hs Hi) as (Hv%validate_nil & _).
    simpl in Hneg. lia.
  - split_and!; [done| |done]. intros H. by destruct (H (originalUrl u)).
Qed.

(** X4.  Shortening either stores nothing, with a status other than
    201, or appends exactly one document, with status 201: for the
    sanitized URL, active, never clicked, never accessed, of a
    validity of 1 to 525600, valid for the schema, under a code that no
    stored document held. *)
Theorem createShortUrl_effect env body s r s' :
  createShortUrl env body s = (r, s') →
  (status r ≠ 201%Z ∧ s' = s)
  ∨ (status r = 201%Z
     ∧ ∃ u, s' = s ++ [u]
         ∧ originalUrl u = sanitizeUrl (body_url body)
         ∧ clicks u = 0%Z ∧ isActive u = true ∧ lastAccessed u = None
         ∧ (1 ≤ validity u)%Z ∧ (validity u ≤ 525600)%Z
         ∧ validate u = []
         ∧ ∀ w, w ∈ s → shortCode w ≠ shortCode u).
Proof.
  intros E. destruct (decide (status r = 201%Z)) as [Hst|Hst].
  - right. split; [done|].
    destruct (createShortUrl_saved env body s r s' E Hst) as (c & _ & Hsave).
    apply save_inr in Hsave as (Hv & Hfresh & ->).
    eexists. split; [reflexivity|].
    pose proof Hv as Hv'. apply validate_nil in Hv'. simpl in *.
    intuition.
  - left. split; [done|].
    apply createShortUrl_outcome in E as [[-> _]|(c & -> & _)]; done.
Qed.

(** X5.  A code just handed out resolves: after a 201, the redirect of
    the code in the response, made before the expiry in the response,
    answers 301 to the URL in the response and counts the first click
    of the new document. *)
Theorem shorten_then_resolve env env' body s link e c o m s' :
  wf s →
  createShortUrl env body s = (Json 201 (Created link e c o m), s') →
  (now env' ≤ e)%Z →
  redirectToUrl env' c s'
  = (Redirect 301 o,
     <[length s := clicked env' (create env o c m e)]> s').
Proof.
  intros Hwf E Hnow.
  pose proof (createShortUrl_wf env body s Hwf) as Hwf'. rewrite E in Hwf'.
  destruct (createShortUrl_saved env body s _ s' E eq_refl)
    as (c0 & [= -> -> <- -> ->] & Hsave).
  apply save_inr in Hsave as (_ & _ & ->). simpl in Hwf'.
  unfold redirectToUrl.
  erewrite (findByShortCode_holder c _ (length s) _ (proj1 Hwf'));
    [|by rewrite list_lookup_middle|done].
  simpl. unfold isExpired. simpl.
  destruct (Z.ltb_spec
              (calculateExpiryDate env (validityOrDefault (body_validity body)))
              (now env')) as [?|_]; [lia|].
  simpl. unfold incrementClicks. simpl. done.
Qed.

(** X6.  Where no active document has the URL, shortening it twice
    stores one document: the second request, made while the new
    document is unexpired, answers 200 with the address of its code and
    its expiry, and leaves the collection as the first request left
    it. *)
Theorem shorten_twice_same_code env1 env2 body s link e c o m s1 :
  findOne (byOriginalUrl (sanitizeUrl (body_url body))) s = None →
  createShortUrl env1 body s = (Json 201 (Created link e c o m), s1) →
  isValid (validateShortenRequest env2 body) = true →
  (now env2 ≤ e)%Z →
  createShortUrl env2 body s1
  = (Json 200 (AlreadyShortened (generateShortUrl env2 (trim c)) e), s1)
  ∧ length s1 = S (length s).
Proof.
  intros Hnone E Hval Hnow.
  destruct (createShortUrl_again env1 env2 body s _ s1 Hnone E eq_refl Hval)
    as (u & -> & Hdedup).
  destruct (createShortUrl_saved env1 body s _ _ E eq_refl)
    as (c0 & [= -> -> <- -> ->] & Hsave).
  apply save_inr in Hsave as (_ & _ & [= ->]%app_inv_head).
  split; [|rewrite length_app; simpl; lia].
  apply Hdedup. unfold isValidForRedirect, isExpired. simpl.
  destruct (Z.ltb_spec
              (calculateExpiryDate env1 (validityOrDefault (body_validity body)))
              (now env2)) as [?|_]; [lia|done].
Qed.

(** X7.  No request of the service changes or removes an inactive
    document: shortening, redirection, deletion and the status toggle
    all leave it in the collection as it is. *)
Theorem inactive_documents_stay rq s u :
  u ∈ s → isActive u = false → u ∈ (serve rq s).2.
Proof.
  intros Hu Ha.
  assert (∀ i w w', s !! i = Some w → isActive w = true →
            u ∈ <[i := w']> s) as Hkeep.
  { intros i w w' Hi Hw. apply list_elem_of_lookup_1 in Hu as [j Hj].
    apply (list_elem_of_lookup_2 _ j).
    rewrite list_lookup_insert_ne; [done|]. intros ->. congruence. }
  destruct rq as [env body|env c|c|env c x]; simpl.
  - destruct (createShortUrl env body s) as [r s'] eqn:E.
    apply createShortUrl_outcome in E as [[-> _]|(c & _ & -> & _)]; [done|].
    simpl. apply elem_of_app. by left.
  - unfold redirectToUrl.
    destruct (findByShortCode c s) as [[i w]|] eqn:E; [|done].
    apply findByShortCode_Some in E as (Hi & _ & Hw).
    destruct (isExpired env w); [done|]. rewrite Hw. simpl.
    unfold incrementClicks.
    destruct (clicks (clicked env w) <? 0)%Z; [done|]. simpl. eauto.
  - unfold deleteUrl, findOneAndDelete.
    destruct (findOne _ s) as [[i w]|] eqn:E; [|done].
    apply findOne_hooked_active in E as [Hi Hw]; [|done]. simpl.
    apply list_elem_of_lookup_1 in Hu as [j Hj].
    assert (j ≠ i) by (intros ->; congruence).
    destruct (decide (j < i)).
    + apply (list_elem_of_lookup_2 _ j). by rewrite list_lookup_delete_lt.
    + apply (list_elem_of_lookup_2 _ (pred j)).
      rewrite list_lookup_delete_ge by lia.
      by replace (S (pred j)) with j by lia.
  - unfold updateUrlStatus. destruct x; try done.
    unfold findOneAndUpdate.
    destruct (findOne _ s) as [[i w]|] eqn:E; [|done].
    apply findOne_hooked_active in E as [Hi Hw]; [|done]. simpl. eauto.
Qed.

(** X8.  The status toggle on a stored, active document answers 200
    with the new value, sets [isActive] to it and [updatedAt] to the
    clock, and changes nothing else in the collection; a value that is
    not a boolean is refused with 400 and changes nothing. *)
Theorem status_toggle_active env s i u b :
  wf s → s !! i = Some u → isActive u = true →
  (updateUrlStatus env (shortCode u) (JBool b) s).1
    = Json 200 (StatusUpdated b (shortCode u) (originalUrl u) b)
  ∧ (∃ u', (updateUrlStatus env (shortCode u) (JBool b) s).2 !! i = Some u'
       ∧ isActive u' = b ∧ updatedAt u' = now env
       ∧ originalUrl u' = originalUrl u ∧ shortCode u' = shortCode u
       ∧ validity u' = validity u ∧ expiry u' = expiry u
       ∧ clicks u' = clicks u ∧ createdAt u' = createdAt u
       ∧ lastAccessed u' = lastAccessed u)
  ∧ (∀ j, j ≠ i →
       (updateUrlStatus env (shortCode u) (JBool b) s).2 !! j = s !! j)
  ∧ (∀ x, isBoolean x = false →
       updateUrlStatus env (shortCode u) x s = (Json 400 NotBoolean, s)).
Proof.
  intros Hwf Hi Ha.
  rewrite (updateUrlStatus_stored env s i u b Hwf Hi), Ha. simpl.
  split_and!; [done| | |].
  - exists (setIsActive env b u). split; [|done].
    apply list_lookup_insert_eq. by eapply lookup_lt_Some.
  - intros j Hj. by apply list_lookup_insert_ne.
  - intros x Hx. by destruct x.
Qed.

Lemma deleteUrl_findByShortCode c s :
  deleteUrl c s
  = match findByShortCode c s with
    | Some (i, u) =>
        (Json 200 (Deleted (shortCode u) (originalUrl u) (createdAt u)
                     (clicks u)), delete i s)
    | None => (Json 404 (NotFound c), s)
    end.
Proof.
  unfold deleteUrl, findOneAndDelete.
  change {| f_originalUrl := None; f_shortCode := Some c;
            f_isActive := None; f_expiry := None |} with (byShortCode c).
  rewrite findOne_byShortCode.
  by destruct (findByShortCode c s) as [[i u]|].
Qed.

(** X9.  Deleting twice is deleting once: after [deleteUrl] a second
    delete of the code answers 404 and changes nothing; a delete that
    answers 200 has removed exactly one document and kept the others in
    their order. *)
Theorem delete_twice s c :
  wf s →
  deleteUrl c (deleteUrl c s).2
    = (Json 404 (NotFound c), (deleteUrl c s).2)
  ∧ (status (deleteUrl c s).1 = 200%Z →
     S (length (deleteUrl c s).2) = length s
     ∧ (deleteUrl c s).2 `sublist_of` s).
Proof.
  intros Hwf. rewrite (deleteUrl_findByShortCode c s).
  destruct (findByShortCode c s) as [[i u]|] eqn:E; simpl.
  - apply findByShortCode_Some in E as (Hi & Hc & Ha). split.
    + rewrite deleteUrl_findByShortCode.
      assert (findByShortCode c (delete i s) = None) as ->; [|done].
      apply findByShortCode_None. intros v Hv Hcv.
      destruct (delete_holder_gone s i u v (proj1 Hwf) Hi Hv). congruence.
    + intros _. split; [|apply sublist_delete].
      rewrite length_delete by (by eexists).
      apply lookup_lt_Some in Hi. lia.
  - split; [|done]. by rewrite deleteUrl_findByShortCode, E.
Qed.

(** X10.  A deleted code is free again: after a delete that answered
    200, a request for that custom code that reaches the custom-code
    step, with a document that passes the schema, is answered 201 and
    its document is stored. *)
Theorem deleted_code_reusable env body s c :
  wf s → status (deleteUrl c s).1 = 200%Z →
  isValid (validateShortenRequest env body) = true →
  body_shortcode body = JStr c →
  validExisting env
    (findOne (byOriginalUrl (sanitizeUrl (body_url body)))
       (deleteUrl c s).2) = None →
  validate (create env (sanitizeUrl (body_url body)) c
              (validityOrDefault (body_validity body))
              (calculateExpiryDate env
                 (validityOrDefault (body_validity body)))) = [] →
  createShortUrl env body (deleteUrl c s).2
  = (Json 201
       (Created (generateShortUrl env c)
          (calculateExpiryDate env (validityOrDefault (body_validity body)))
          c (sanitizeUrl (body_url body))
          (validityOrDefault (body_validity body))),
     (deleteUrl c s).2
       ++ [create env (sanitizeUrl (body_url body)) c
             (validityOrDefault (body_validity body))
             (calculateExpiryDate env
                (validityOrDefault (body_validity body)))]).
Proof.
  intros Hwf Hst Hval Hbody Hdedup Hschema.
  rewrite (custom_code_outcome env body _ c (deleteUrl_wf s c Hwf)
             Hval Hbody Hdedup Hschema).
  assert (list_find (fun u => shortCode u = c) (deleteUrl c s).2 = None)
    as ->; [|done].
  apply list_find_None, Forall_forall. intros v Hv Hcv.
  destruct (validateShortenRequest_valid env body Hval) as (_ & _ & Hcode).
  destruct (isValidShortCode_str c (Hcode c Hbody)) as [Htrim _].
  revert Hst Hv. rewrite deleteUrl_findByShortCode.
  destruct (findByShortCode c s) as [[i u]|] eqn:E; simpl; [|done].
  apply findByShortCode_Some in E as (Hi & Hc & _). intros _ Hv.
  destruct (delete_holder_gone s i u v (proj1 Hwf) Hi Hv). congruence.
Qed.

(** X11.  The statistics handler never reports an inactive document;
    the remaining time it reports is never negative, is zero for an
    expired document and is the time left to the expiry otherwise. *)
Theorem stats_fields env c s fields :
  getUrlStats env c s = Json 200 (Stats fields) →
  st_isActive fields = true
  ∧ st_shortCode fields = trim c
  ∧ st_isExpired fields = (st_expiry fields <? now env)%Z
  ∧ (0 ≤ st_timeRemaining fields)%Z
  ∧ (st_isExpired fields = true → st_timeRemaining fields = 0%Z)
  ∧ (st_isExpired fields = false →
     st_timeRemaining fields = (st_expiry fields - now env)%Z).
Proof.
  unfold getUrlStats.
  destruct (findByShortCode c s) as [[i u]|] eqn:E; [|done].
  apply findByShortCode_Some in E as (_ & Hc & Ha).
  intros [= <-]. simpl. unfold timeRemaining, isExpired.
  destruct (Z.ltb_spec (expiry u) (now env)); split_and!; try done; lia.
Qed.

End Service.

(** ** The listing and the maintenance queries *)

Section Queries.
Import Helpers Url Controller.

Implicit Types (s l : list doc) (u v : doc) (env : Env) (q : filter).

Lemma matches_hooked q u :
  f_isActive q = None →
  matches (preFind (castFilter q)) u
  = matches (castFilter q) u && isActive u.
Proof.
  intros Hq. destruct q as [[o|] [c|] a [[d|d]|]]; simpl in Hq; subst a;
    unfold matches, preFind, castFilter, holds; simpl;
    destruct (isActive u); simpl;
    rewrite ?andb_true_r, ?andb_false_r; done.
Qed.

Lemma find_length_countDocuments q s :
  f_isActive q = None →
  (Z.of_nat (length (find q s)) ≤ countDocuments q s)%Z.
Proof.
  intros Hq. unfold find, countDocuments. apply inj_le.
  induction s as [|u s IH]; [done|]. rewrite !filter_cons.
  rewrite (matches_hooked q u Hq).
  destruct (matches (castFilter q) u), (isActive u); simpl;
    repeat case_decide; simpl in *; try done; lia.
Qed.

Lemma ceilDiv_lt (page total limit : Z) :
  (0 < limit)%Z →
  ltNum page (ceilDiv total limit) = true ↔ (page * limit < total)%Z.
Proof.
  intros Hl. unfold ceilDiv.
  destruct (Z.eqb_spec limit 0) as [?|_]; [lia|]. simpl.
  rewrite Z.ltb_lt.
  pose proof (Z.div_mod (- total) limit ltac:(lia)).
  pose proof (Z.mod_pos_bound (- total) limit Hl).
  split; intros; nia.
Qed.

Lemma NoDup_fmap_filter {B} (f : doc → B) (P : doc → Prop)
    `{!∀ x, Decision (P x)} s :
  NoDup (f <$> s) → NoDup (f <$> base.filter P s).
Proof.
  induction s as [|u s IH]; [done|]. rewrite fmap_cons, NoDup_cons.
  intros [Hu Hs]. rewrite filter_cons. case_decide; [|by apply IH].
  rewrite fmap_cons. apply NoDup_cons. split; [|by apply IH].
  intros (v & Hv & [_ Hin]%list_elem_of_filter)%list_elem_of_fmap.
  apply Hu. rewrite Hv. by apply list_elem_of_fmap_2.
Qed.

(** X12.  What a page of the listing holds, whatever the page, the
    limit and the sort asked for: every document on it is a stored,
    active document, which without [includeExpired] has not reached its
    expiry; on a collection with distinct codes no document is listed
    twice; and the page never has more documents than the total that
    is reported, which never exceeds the size of the collection. *)
Theorem listing_page env rq s urls pages :
  getAllUrls env rq s = Json 200 (Listing urls pages) →
  (∀ u, u ∈ urls →
     u ∈ s ∧ isActive u = true
     ∧ (includeExpired rq = false → (now env < expiry u)%Z))
  ∧ (NoDup (shortCode <$> s) → NoDup (shortCode <$> urls))
  ∧ (Z.of_nat (length urls) ≤ totalItems pages)%Z
  ∧ (totalItems pages ≤ Z.of_nat (length s))%Z.
Proof.
  intros Hlist.
  pose proof (getAllUrls_only_active env rq s urls pages Hlist) as Hactive.
  revert Hlist. unfold getAllUrls.
  destruct ((page rq - 1) * limit rq <? 0)%Z; [done|].
  intros [= <- <-].
  assert (∀ l, Url.limit (limit rq)
                   (Url.skip ((page rq - 1) * limit rq)
                      (Url.sort (sortBy rq)
                         (if bool_decide (sortOrder rq = str "desc")
                          then (-1)%Z else 1%Z) l))
                 `sublist_of`
                 Url.sort (sortBy rq)
                   (if bool_decide (sortOrder rq = str "desc")
                    then (-1)%Z else 1%Z) l) as Hsub.
  { intros l. unfold Url.limit, Url.skip.
    etransitivity; [|apply sublist_drop].
    destruct (limit rq =? 0)%Z; [reflexivity | apply sublist_take]. }
  simpl. split_and!.
  - intros u Hu. destruct (Hactive u Hu) as [Hs Ha].
    split_and!; [done..|]. intros Hinc. rewrite Hinc in Hu. simpl in Hu.
    apply limit_subseteq, skip_subseteq in Hu.
    rewrite sort_Permutation in Hu.
    unfold find in Hu. apply list_elem_of_filter in Hu as [Hm _].
    apply Is_true_true in Hm. unfold matches, preFind, castFilter in Hm.
    simpl in Hm. rewrite !andb_true_iff in Hm.
    destruct Hm as [_ Hm]. by apply Z.ltb_lt.
  - intros Hs. eapply sublist_NoDup;
      [|exact (fmap_sublist shortCode _ _ (Hsub _))].
    rewrite sort_Permutation. by apply NoDup_fmap_filter.
  - etransitivity; [|apply find_length_countDocuments;
                      by destruct (includeExpired rq)].
    apply inj_le.
    etransitivity; [apply sublist_length, Hsub|].
    by rewrite sort_Permutation.
  - unfold countDocuments. apply inj_le, length_filter.
Qed.

Lemma lexLe_total (a b : list N) : lexLe a b = true ∨ lexLe b a = true.
Proof.
  revert b. induction a as [|x a IH]; intros [|y b]; simpl; auto.
  destruct (N.ltb_spec x y), (N.ltb_spec y x), (N.eqb_spec x y),
    (N.eqb_spec y x); simpl; auto; lia.
Qed.

Lemma strLe_total (a b : jsstring) : strLe a b = true ∨ strLe b a = true.
Proof. apply lexLe_total. Qed.

Lemma bsonLe_total a b : bsonLe a b = true ∨ bsonLe b a = true.
Proof.
  destruct a, b; simpl; auto using strLe_total; try (by left);
    try (by right).
  - rewrite !Z.leb_le. lia.
  - destruct b, b0; auto.
  - rewrite !Z.leb_le. lia.
Qed.

Lemma precedes_total name direction :
  Total (fun a b => Is_true (precedes name direction a b)).
Proof.
  intros a b. unfold precedes.
  destruct (direction <? 0)%Z;
    [destruct (bsonLe_total (path name b) (path name a)) as [->| ->]
    |destruct (bsonLe_total (path name a) (path name b)) as [->| ->]];
    simpl; auto.
Qed.

Lemma Sorted_drop {A} (R : relation A) n (l : list A) :
  Sorted R l → Sorted R (drop n l).
Proof.
  revert l. induction n as [|n IH]; intros [|x l] Hl; simpl; try done.
  apply IH. by apply Sorted_inv in Hl as [? _].
Qed.

Lemma Sorted_take {A} (R : relation A) n (l : list A) :
  Sorted R l → Sorted R (take n l).
Proof.
  revert l. induction n as [|n IH]; intros [|x l] Hl; simpl;
    try constructor.
  - apply IH. by apply Sorted_inv in Hl as [? _].
  - apply Sorted_inv in Hl as [_ Hhd].
    destruct l as [|y l]; destruct n; simpl; constructor.
    by apply HdRel_inv in Hhd.
Qed.

Lemma Sorted_weaken {A} (R R' : relation A) (l : list A) :
  (∀ a b, R a b → R' a b) → Sorted R l → Sorted R' l.
Proof.
  intros HR. induction 1 as [|x l _ IH Hhd]; constructor; [done|].
  destruct Hhd; constructor. by apply HR.
Qed.

(** X13.  A page of the listing sorted by one of the number or date
    fields [createdAt], [updatedAt], [expiry], [clicks] and [validity]
    is in the order asked for: down the page the field never increases
    when [sortOrder] is [desc], and never decreases otherwise. *)
Theorem listing_sorted env rq s urls pages :
  getAllUrls env rq s = Json 200 (Listing urls pages) →
  (sortBy rq = str "createdAt" →
   Sorted (inOrder (sortOrder rq) createdAt) urls)
  ∧ (sortBy rq = str "updatedAt" →
     Sorted (inOrder (sortOrder rq) updatedAt) urls)
  ∧ (sortBy rq = str "expiry" →
     Sorted (inOrder (sortOrder rq) expiry) urls)
  ∧ (sortBy rq = str "clicks" →
     Sorted (inOrder (sortOrder rq) clicks) urls)
  ∧ (sortBy rq = str "validity" →
     Sorted (inOrder (sortOrder rq) validity) urls).
Proof.
  unfold getAllUrls.
  destruct ((page rq - 1) * limit rq <? 0)%Z; [done|].
  intros [= <- _].
  assert (∀ name direction l,
            Sorted (fun a b => Is_true (precedes name direction a b))
              (Url.limit (limit rq)
                 (Url.skip ((page rq - 1) * limit rq)
                    (Url.sort name direction l)))) as Hsorted.
  { intros name direction l. unfold Url.limit, Url.skip, Url.sort.
    pose proof (precedes_total name direction) as Htotal.
    destruct (limit rq =? 0)%Z; [|apply Sorted_take];
      apply Sorted_drop, Sorted_merge_sort, _. }
  assert (∀ (key : doc → Z),
            (∀ a b, bsonLe (path (sortBy rq) a) (path (sortBy rq) b)
                    = (key a <=? key b)%Z) →
            ∀ l, Sorted (inOrder (sortOrder rq) key)
                   (Url.limit (limit rq)
                      (Url.skip ((page rq - 1) * limit rq)
                         (Url.sort (sortBy rq)
                            (if bool_decide (sortOrder rq = str "desc")
                             then (-1)%Z else 1%Z) l)))) as Hkey.
  { intros key Hpath l. eapply Sorted_weaken; [|apply Hsorted].
    intros a b Hab. apply Is_true_true in Hab.
    unfold precedes in Hab. unfold inOrder.
    destruct (bool_decide (sortOrder rq = str "desc")); simpl in Hab;
      rewrite Hpath in Hab; by apply Z.leb_le. }
  split_and!; intros Hname; apply Hkey; intros a b; rewrite Hname; done.
Qed.

Lemma deleteMany_length q s :
  ((deleteMany q s).1 + Z.of_nat (length (deleteMany q s).2)
   = Z.of_nat (length s))%Z.
Proof.
  unfold deleteMany. simpl. induction s as [|u s IH]; [done|].
  rewrite !filter_cons.
  destruct (matches (castFilter q) u); simpl; repeat case_decide;
    simpl in *; try done; lia.
Qed.

(** X14.  The clean-up sweep deletes exactly the documents whose
    expiry is past, active or not: what is left are the documents of
    the collection that are not expired, in their order; the count it
    answers is the number deleted; the unique index still holds; and
    [findExpiredUrls] lists nothing afterwards. *)
Theorem cleanup_removes_expired env s :
  (∀ u, u ∈ (cleanupExpiredUrls env s).2
        ↔ u ∈ s ∧ Url.isExpired env u = false)
  ∧ (cleanupExpiredUrls env s).2 `sublist_of` s
  ∧ ((cleanupExpiredUrls env s).1
     + Z.of_nat (length (cleanupExpiredUrls env s).2)
     = Z.of_nat (length s))%Z
  ∧ (wf s → wf (cleanupExpiredUrls env s).2)
  ∧ findExpiredUrls env (cleanupExpiredUrls env s).2 = [].
Proof.
  assert (∀ u, negb (matches (castFilter
              {| f_originalUrl := None; f_shortCode := None;
                 f_isActive := None;
                 f_expiry := Some (DateLt (now env)) |}) u)
            = negb (Url.isExpired env u)) as Hm by done.
  assert (∀ u, u ∈ (cleanupExpiredUrls env s).2
               ↔ u ∈ s ∧ Url.isExpired env u = false) as Hin.
  { intros u. unfold cleanupExpiredUrls, deleteMany. simpl.
    rewrite list_elem_of_filter, Hm.
    destruct (Url.isExpired env u); simpl; intuition congruence. }
  split_and!; [done| | | |].
  - apply sublist_filter.
  - apply deleteMany_length.
  - intros [Hnd Htr]. split.
    + by apply NoDup_fmap_filter.
    + apply Forall_forall. intros u [Hu _]%Hin.
      rewrite Forall_forall in Htr. by apply Htr.
  - apply elem_of_nil_inv. intros u.
    unfold findExpiredUrls, find. rewrite list_elem_of_filter.
    intros [Hexp [_ Hu]%Hin]. apply Is_true_true in Hexp.
    unfold matches, preFind, castFilter in Hexp. simpl in Hexp.
    rewrite !andb_true_iff in Hexp. destruct Hexp as [_ Hexp].
    unfold Url.isExpired in Hu. congruence.
Qed.

(** X15.  [findActiveUrls] lists the active documents whose expiry is
    still ahead, all of them valid for redirect; a document valid for
    redirect is missing from it only at the very instant of its expiry.
    [findExpiredUrls] lists the expired documents that are active: the
    hook hides the inactive ones, which the sweep deletes all the
    same. *)
Theorem finders env s u :
  (u ∈ findActiveUrls env s
   ↔ u ∈ s ∧ isActive u = true ∧ (now env < expiry u)%Z)
  ∧ (u ∈ findActiveUrls env s → isValidForRedirect env u = true)
  ∧ (u ∈ s → isValidForRedirect env u = true →
     u ∉ findActiveUrls env s → expiry u = now env)
  ∧ (u ∈ findExpiredUrls env s
     ↔ u ∈ s ∧ isActive u = true ∧ (expiry u < now env)%Z)
  ∧ (u ∈ s → isActive u = false → Url.isExpired env u = true →
     (u ∉ findExpiredUrls env s) ∧ (u ∉ (cleanupExpiredUrls env s).2)).
Proof.
  assert (u ∈ findActiveUrls env s
          ↔ u ∈ s ∧ isActive u = true ∧ (now env < expiry u)%Z) as Hact.
  { unfold findActiveUrls, find. rewrite list_elem_of_filter.
    unfold matches, preFind, castFilter, holds. simpl.
    rewrite andb_True, Is_true_true, Is_true_true, Z.ltb_lt.
    destruct (isActive u); simpl; intuition congruence. }
  assert (u ∈ findExpiredUrls env s
          ↔ u ∈ s ∧ isActive u = true ∧ (expiry u < now env)%Z) as Hexp.
  { unfold findExpiredUrls, find. rewrite list_elem_of_filter.
    unfold matches, preFind, castFilter, holds. simpl.
    rewrite andb_True, Is_true_true, Is_true_true, Z.ltb_lt.
    destruct (isActive u); simpl; intuition congruence. }
  unfold isValidForRedirect, Url.isExpired.
  split_and!; [done| | |done|].
  - intros (_ & -> & Hlt)%Hact. simpl.
    destruct (Z.ltb_spec (expiry u) (now env)); [lia|done].
  - intros Hu [Ha Hne%negb_true_iff]%andb_true_iff Hnot.
    apply Z.ltb_ge in Hne.
    destruct (decide (expiry u = now env)); [done|].
    destruct Hnot. apply Hact. split_and!; [done..|lia].
  - intros Hu Ha He. split.
    + intros (_ & ? & _)%Hexp. congruence.
    + unfold cleanupExpiredUrls, deleteMany. simpl.
      rewrite list_elem_of_filter. intros [Hm _].
      unfold matches, castFilter, holds in Hm. simpl in Hm.
      by rewrite He in Hm.
Qed.

End Queries.

(** ** The helpers *)

Section HelperProperties.
Import Helpers Url Controller.

Implicit Types (c x : jsstring) (env : Env).

Lemma hasSchemeIgnoreCase_prepend t :
  hasSchemeIgnoreCase (str "http://" ++ t) = true.
Proof.
  apply hasSchemeIgnoreCase_spec. exists (str "http://"), t.
  split; [done | by right].
Qed.

Lemma trimmed_prepend t : trimmed t → trimmed (str "http://" ++ t).
Proof.
  intros [_ Hl]. split.
  - by intros c [= <-].
  - intros c. rewrite last_app. destruct (last t) eqn:E.
    + intros [= <-]. by apply Hl.
    + by intros [= <-].
Qed.

Lemma sanitizeUrl_fixed y :
  trimmed y → hasSchemeIgnoreCase y = true → sanitizeUrl (JStr y) = y.
Proof.
  intros Htr Hs. assert (y ≠ []) as Hne by (by intros ->).
  unfold sanitizeUrl. cbn [truthy isString negb orb].
  rewrite bool_decide_eq_false_2 by done. cbn [negb orb].
  by rewrite (trim_id y Htr), Hs.
Qed.

(** X16.  [sanitizeUrl] is idempotent: sanitizing what it answered
    changes nothing.  Its answer is empty exactly for a value that is
    falsy or not a string, and otherwise begins with a scheme and has
    no whitespace at either end. *)
Theorem sanitizeUrl_idempotent v :
  sanitizeUrl (JStr (sanitizeUrl v)) = sanitizeUrl v
  ∧ (sanitizeUrl v = [] ↔ truthy v = false ∨ isString v = false)
  ∧ (sanitizeUrl v ≠ [] → hasSchemeIgnoreCase (sanitizeUrl v) = true)
  ∧ trimmed (sanitizeUrl v).
Proof.
  assert (trimmed []) as Hnil by (by split).
  destruct v as [| |b|z|x|];
    try (by split_and!; [done|split; auto|done|done]).
  - destruct b; (split_and!; [done|split; auto|done|done]).
  - destruct (z =? 0)%Z eqn:Ez; unfold sanitizeUrl; simpl; rewrite Ez;
      simpl; (split_and!; [done|split; auto|done|done]).
  - destruct (decide (x = [])) as [->|Hx].
    { split_and!; [done|split; auto|done|done]. }
    assert (sanitizeUrl (JStr x)
            = if hasSchemeIgnoreCase (trim x) then trim x
              else str "http://" ++ trim x) as Heq.
    { unfold sanitizeUrl. simpl. rewrite bool_decide_eq_false_2 by done.
      simpl. by destruct (hasSchemeIgnoreCase (trim x)). }
    rewrite !Heq. cbn [truthy isString].
    rewrite bool_decide_eq_false_2 by done. cbn [negb].
    destruct (trim_split x) as (_ & _ & _ & _ & _ & Htr).
    destruct (hasSchemeIgnoreCase (trim x)) eqn:Hs.
    + assert (trim x ≠ []) as Hne by (by intros E; rewrite E in Hs).
      split_and!.
      * by apply sanitizeUrl_fixed.
      * split; [intros E; by destruct Hne | by intros [|]].
      * by intros _.
      * done.
    + split_and!.
      * apply sanitizeUrl_fixed;
          [by apply trimmed_prepend | apply hasSchemeIgnoreCase_prepend].
      * split; [by intros E | by intros [|]].
      * intros _. apply hasSchemeIgnoreCase_prepend.
      * by apply trimmed_prepend.
Qed.

(** X17.  [isValidShortCode] accepts exactly the strings of 3 to 20
    letters, digits, hyphens and underscores.  Such a code is stored as
    it is, the [trim] setter having nothing to remove, and the schema
    never refuses a document for it. *)
Theorem isValidShortCode_spec v :
  (isValidShortCode v = true
   ↔ ∃ c, v = JStr c ∧ 3 ≤ length c ∧ length c ≤ 20
          ∧ Forall (fun a => isCodeChar a = true) c)
  ∧ ∀ c env o (m e : Z),
      v = JStr c → isValidShortCode v = true →
      shortCode (create env o c m e) = c
      ∧ (validate (create env o c m e) = []
         ↔ o ≠ [] ∧ originalUrlValidator o = true ∧ length o ≤ 2048
           ∧ (1 ≤ m)%Z ∧ (m ≤ 525600)%Z).
Proof.
  assert (∀ c, isValidShortCode (JStr c) = true
               ↔ 3 ≤ length c ∧ length c ≤ 20
                 ∧ Forall (fun a => isCodeChar a = true) c) as Hstr.
  { intros c. unfold isValidShortCode, validPattern.
    cbn [truthy isString]. case_bool_decide as Hc; cbn [negb orb andb].
    - subst c. split; [done|]. simpl. lia.
    - rewrite !andb_true_iff, !Nat.leb_le, forallb_forall, Forall_forall.
      setoid_rewrite <- list_elem_of_In. tauto. }
  split.
  - split.
    + intros Hv. destruct v as [| |b|z|c|]; try done;
        try (by destruct b);
        try (by unfold isValidShortCode in Hv; simpl in Hv;
             destruct (z =? 0)%Z).
      exists c. split; [done|]. by apply Hstr.
    + intros (c & -> & H). by apply Hstr.
  - intros c env o m e -> Hv.
    destruct (isValidShortCode_str c Hv) as [Htrim _].
    apply Hstr in Hv as (H3 & H20 & _).
    assert (shortCode (create env o c m e) = c) as Hc by done.
    split; [done|]. rewrite validate_nil, Hc. simpl.
    assert (c ≠ []) by (intros ->; simpl in H3; lia). intuition lia.
Qed.

(** X18.  A shortening request passes validation exactly when its URL
    is truthy and valid once sanitized, its validity, if given, is 1 to
    525600, and its custom code, if given, is a valid short code; at
    most three errors are reported; and a request that fails is
    answered 400 with its errors whatever the collection, which is left
    as it is. *)
Theorem validateShortenRequest_spec env body :
  (isValid (validateShortenRequest env body) = true
   ↔ truthy (body_url body) = true
     ∧ isValidUrl env (sanitizeUrl (body_url body)) = true
     ∧ (∀ m, body_validity body = Some m → (1 ≤ m)%Z ∧ (m ≤ 525600)%Z)
     ∧ (body_shortcode body = JUndefined
        ∨ isValidShortCode (body_shortcode body) = true))
  ∧ length (errors (validateShortenRequest env body)) ≤ 3
  ∧ (isValid (validateShortenRequest env body) = false →
     ∀ s, createShortUrl env body s
          = (Json 400 (ValidationFailed
                         (errors (validateShortenRequest env body))), s)).
Proof.
  split_and!.
  - unfold validateShortenRequest. simpl.
    rewrite bool_decide_eq_true, !app_nil.
    assert (∀ (b : bool) (l : list string),
              l ≠ [] → (if b then l else []) = [] ↔ b = false) as Hif
      by (intros [] l Hl; intuition congruence).
    assert ((if negb (truthy (body_url body))
             then ["URL is required"%string]
             else if negb (isValidUrl env (sanitizeUrl (body_url body)))
                  then ["Please provide a valid URL"%string] else []) = []
            ↔ truthy (body_url body) = true
              ∧ isValidUrl env (sanitizeUrl (body_url body)) = true) as ->.
    { destruct (truthy (body_url body)); simpl; [|intuition congruence].
      destruct (isValidUrl env _); simpl; intuition congruence. }
    assert (match body_validity body with
            | Some validityNum =>
                if (validityNum <? 1)%Z || (525600 <? validityNum)%Z
                then ["Validity must be between 1 and 525600 minutes"%string]
                else []
            | None => []
            end = []
            ↔ ∀ m, body_validity body = Some m → (1 ≤ m)%Z ∧ (m ≤ 525600)%Z)
      as ->.
    { destruct (body_validity body) as [m|]; [|by split].
      rewrite Hif, orb_false_iff, !Z.ltb_ge by done. split.
      - by intros ? ? [= <-].
      - intros H. by apply H. }
    destruct (body_shortcode body) eqn:E;
      rewrite ?Hif, ?negb_false_iff by done;
      unfold isValidShortCode; simpl; intuition congruence.
  - unfold validateShortenRequest. simpl. rewrite !length_app.
    destruct (negb (truthy (body_url body)));
      [|destruct (negb (isValidUrl env (sanitizeUrl (body_url body))))];
      (destruct (body_validity body) as [m|];
        [destruct ((m <? 1)%Z || (525600 <? m)%Z)|]);
      destruct (body_shortcode body) eqn:E;
      repeat case_match; simpl; lia.
  - intros Hinv s. unfold createShortUrl. by rewrite Hinv.
Qed.

Lemma chars_codeChars : Forall (fun a => isCodeChar a = true) chars.
Proof.
  apply Forall_forall. intros a Ha%list_elem_of_In. revert a Ha.
  by apply forallb_forall.
Qed.

Lemma charAt_chars k :
  k < 62 → ∃ a, charAt chars k = [a] ∧ a ∈ chars.
Proof.
  intros Hk. unfold charAt.
  destruct (lookup_lt_is_Some_2 chars k) as [a Ha]; [done|].
  rewrite Ha. exists a. split; [done|]. by eapply list_elem_of_lookup_2.
Qed.

Lemma fallbackLoop_shape randomIndex todo i result :
  (∀ k, randomIndex k < 62) →
  length (fallbackLoop randomIndex todo i result) = length result + todo
  ∧ (Forall (.∈ chars) result →
     Forall (.∈ chars) (fallbackLoop randomIndex todo i result)).
Proof.
  intros Hr. revert i result.
  induction todo as [|todo IH]; intros i result; simpl; [by split; [lia|]|].
  destruct (charAt_chars (randomIndex i) (Hr i)) as (a & -> & Ha).
  destruct (IH (S i) (result ++ [a])) as [Hlen Hall].
  rewrite Hlen, length_app. simpl. split; [lia|].
  intros H. apply Hall, Forall_app. split; [done|]. by apply Forall_singleton.
Qed.

(** X19.  The fallback generator, whose random index is always one of
    the 62 positions of its alphabet, answers a string of exactly the
    requested length made of characters of that alphabet; for a length
    of 3 to 20, the default 5 among them, the string is a valid short
    code, which the [trim] setter of the schema leaves as it is. *)
Theorem generateFallbackShortCode_shape randomIndex n :
  (∀ k, randomIndex k < 62) →
  length (generateFallbackShortCode randomIndex n) = n
  ∧ Forall (.∈ chars) (generateFallbackShortCode randomIndex n)
  ∧ (3 ≤ n ≤ 20 →
     isValidShortCode (JStr (generateFallbackShortCode randomIndex n)) = true
     ∧ castShortCode (generateFallbackShortCode randomIndex n)
       = generateFallbackShortCode randomIndex n).
Proof.
  intros Hr. unfold generateFallbackShortCode.
  destruct (fallbackLoop_shape randomIndex n 0 [] Hr) as [Hlen Hall].
  simpl in Hlen. specialize (Hall (Forall_nil_2 _)).
  split_and!; [done..|]. intros Hn.
  set (c := fallbackLoop randomIndex n 0 []) in *.
  assert (isValidShortCode (JStr c) = true) as Hv.
  { unfold isValidShortCode, validPattern. cbn [truthy isString].
    assert (c ≠ []) by (intros E; rewrite E in Hlen; simpl in Hlen; lia).
    rewrite bool_decide_eq_false_2 by done. cbn [negb orb andb].
    rewrite !andb_true_iff, !Nat.leb_le, forallb_forall.
    split_and!; [|lia..]. intros a Ha%list_elem_of_In.
    pose proof chars_codeChars as Hc. rewrite Forall_forall in Hc, Hall.
    by apply Hc, Hall. }
  split; [done|]. by destruct (isValidShortCode_str c Hv).
Qed.

(** X20.  [formatTimeRemaining] answers Expired exactly when the date
    is missing or past; otherwise the days, hours and minutes it prints
    are the whole minutes left, hours below 24 and minutes below 60,
    the leading zero parts left out. *)
Theorem formatTimeRemaining_parts env e :
  (formatTimeRemaining env None = str "Expired")
  ∧ ((e < now env)%Z → formatTimeRemaining env (Some e) = str "Expired")
  ∧ ((now env ≤ e)%Z →
     ∃ d h m : Z,
       (0 ≤ d ∧ 0 ≤ h < 24 ∧ 0 ≤ m < 60)%Z
       ∧ (d * 1440 + h * 60 + m = (e - now env) / 60000)%Z
       ∧ formatTimeRemaining env (Some e)
         = if (0 <? d)%Z
           then numberToString d ++ str "d " ++ numberToString h
                ++ str "h " ++ numberToString m ++ str "m"
           else if (0 <? h)%Z
           then numberToString h ++ str "h " ++ numberToString m ++ str "m"
           else numberToString m ++ str "m").
Proof.
  split_and!.
  - done.
  - intros H. unfold formatTimeRemaining, Helpers.isExpired.
    by rewrite (proj2 (Z.ltb_lt _ _) H).
  - intros H. unfold formatTimeRemaining, Helpers.isExpired.
    rewrite (proj2 (Z.ltb_ge _ _) H). cbv zeta.
    unfold floorDiv, remainder.
    eexists _, _, _. split_and!; [..|reflexivity];
      Z.to_euclidean_division_equations; lia.
Qed.

(** X25.  The route-parameter check lets through exactly the missing
    or empty code and the codes made only of letters, digits, hyphens
    and underscores.  Every valid short code passes it, and a code that
    passes is one the [trim] of query casting leaves as it is. *)
Theorem validateShortCodeParam_spec c :
  Middleware.validateShortCodeParam None = None
  ∧ (Middleware.validateShortCodeParam (Some c) = None
     ↔ c = [] ∨ Forall (fun a => isCodeChar a = true) c)
  ∧ (Middleware.validateShortCodeParam (Some c) ≠ None →
     Middleware.validateShortCodeParam (Some c) = Some 400%Z)
  ∧ (isValidShortCode (JStr c) = true →
     Middleware.validateShortCodeParam (Some c) = None)
  ∧ (Middleware.validateShortCodeParam (Some c) = None →
     castShortCode c = c).
Proof.
  assert (Middleware.validateShortCodeParam (Some c) = None
          ↔ c = [] ∨ Forall (fun a => isCodeChar a = true) c) as Hiff.
  { unfold Middleware.validateShortCodeParam, validPattern.
    cbn [truthy]. case_bool_decide as Hc; cbn [negb andb].
    - split; [by left|done].
    - destruct (forallb isCodeChar c) eqn:E; simpl.
      + split; [|done]. intros _. right.
        apply Forall_forall. intros a Ha%list_elem_of_In.
        by eapply forallb_forall in E.
      + split; [done|]. intros [?|H]; [done|].
        assert (forallb isCodeChar c = true) as E'; [|congruence].
        apply forallb_forall. intros a Ha%list_elem_of_In.
        rewrite Forall_forall in H. by apply H. }
  split_and!; [done|done| | |].
  - unfold Middleware.validateShortCodeParam.
    by destruct (truthy (JStr c) && negb (validPattern c)).
  - intros Hv. apply Hiff. right.
    unfold isValidShortCode in Hv. cbn [truthy isString] in Hv.
    destruct (negb (bool_decide (c = []))); cbn [negb orb] in Hv; [|done].
    apply andb_true_iff in Hv as [[Hp _]%andb_true_iff _].
    apply andb_true_iff in Hp as [_ Hp].
    apply Forall_forall. intros a Ha%list_elem_of_In.
    by eapply forallb_forall in Hp.
  - intros [->|H]%Hiff; [done|].
    destruct (decide (c = [])) as [->|Hne]; [done|].
    apply validPattern_trim. unfold validPattern.
    rewrite bool_decide_eq_false_2 by done. simpl.
    apply forallb_forall. intros a Ha%list_elem_of_In.
    rewrite Forall_forall in H. by apply H.
Qed.

End HelperProperties.

(** ** The error middleware *)

Section MiddlewareProperties.
Import Helpers Middleware.

Implicit Types (err : jsError) (r : reply) (NODE_ENV : option jsstring).

Lemma truthy_orElse a b : truthy b = true → truthy (orElse a b) = true.
Proof. unfold orElse. by destruct (truthy a) eqn:E. Qed.


Lemma classified_plain err (text : string) (code : Z) :
  text ≠ ""%string → code ≠ 0%Z → classified err (plain text code).
Proof.
  intros Ht Hc. split_and!; try done.
  - simpl. by apply negb_true_iff, Z.eqb_neq.
  - destruct text; [done|]. done.
Qed.

Lemma classified_if err (b : bool) error error' :
  classified err error → classified err error' →
  classified err (if b then error else error').
Proof. by destruct b. Qed.

(** The local [error] as the tests on the name, the code and the
    status leave it, before the production rule. *)
Lemma errorHandler_classified NODE_ENV err r :
  errorHandler NODE_ENV err = Some r →
  ∃ error,
    classified err error
    ∧ (isNum (e_status err) 429 = true →
       error = plain "Too many requests, please try again later" 429)
    ∧ r = {| r_status := status error;
             r_body :=
               {| b_error :=
                    if bool_decide (NODE_ENV = Some (str "production"))
                       && isNum (status error) 500
                    then JStr (str "Internal Server Error")
                    else message error;
                  b_details :=
                    if bool_decide (NODE_ENV = Some (str "production"))
                       && isNum (status error) 500
                    then None else details error;
                  b_field :=
                    match field error with
                    | Some f => if bool_decide (f = []) then None else Some f
                    | None => None
                    end;
                  b_stack :=
                    if bool_decide (NODE_ENV = Some (str "development"))
                    then Some (e_stack err) else None |} |}.
Proof.
  pose proof (truthy_orElse (e_message err)
                (JStr (str "Internal Server Error")) eq_refl) as Hm.
  pose proof (truthy_orElse (orElse (e_status err) (e_statusCode err))
                (JNum 500) eq_refl) as Hs.
  unfold errorHandler.
  destruct (isStr (e_name err) "ValidationError") eqn:Ev,
    (e_errors err) as [l'|] eqn:El,
    (isNum (e_code err) 11000) eqn:Ec, (e_keyValue err) as [keys|];
    simpl; try done; intros [= <-];
    match goal with |- context [isNum (status ?E) 500] => exists E end;
    (split_and!;
     [|intros E; rewrite E; reflexivity
      |by destruct (bool_decide (NODE_ENV = _) && _)]);
    repeat (apply classified_if; [by apply classified_plain|]);
    split_and!; simpl; try done; by intros ? [= <-].
Qed.

(** X22.  Whatever the error, the answer has a truthy status and a
    truthy message; [details] are sent only with status 400 and are the
    messages of a [ValidationError]; a [field] is sent only with status
    409, for a duplicate key, and is not empty; and the stack is sent
    exactly in development. *)
Theorem errorHandler_reply NODE_ENV err r :
  errorHandler NODE_ENV err = Some r →
  truthy (r_status r) = true
  ∧ truthy (b_error (r_body r)) = true
  ∧ (∀ l, b_details (r_body r) = Some l →
          r_status r = JNum 400 ∧ e_errors err = Some l
          ∧ isStr (e_name err) "ValidationError" = true)
  ∧ (∀ f, b_field (r_body r) = Some f →
          r_status r = JNum 409 ∧ f ≠ []
          ∧ isNum (e_code err) 11000 = true)
  ∧ (is_Some (b_stack (r_body r)) ↔ NODE_ENV = Some (str "development")).
Proof.
  intros (error & (Hs & Hm & Hd & Hf) & _ & ->)%errorHandler_classified.
  simpl. split_and!.
  - done.
  - by destruct (bool_decide (NODE_ENV = _) && _).
  - intros l. destruct (bool_decide (NODE_ENV = _) && _); [done|]. apply Hd.
  - intros f. destruct (field error) as [f'|]; [|done].
    case_bool_decide; [done|]. intros [= <-].
    destruct (Hf f' eq_refl). done.
  - case_bool_decide; split; try done.
Qed.

(** X23.  In production an answer with status 500 carries the fixed
    message Internal Server Error, no details and no stack: the
    message of the error is not exposed. *)
Theorem errorHandler_production err r :
  errorHandler (Some (str "production")) err = Some r →
  r_status r = JNum 500 →
  b_error (r_body r) = JStr (str "Internal Server Error")
  ∧ b_details (r_body r) = None
  ∧ b_field (r_body r) = None
  ∧ b_stack (r_body r) = None.
Proof.
  intros (error & (Hs & Hm & Hd & Hf) & _ & ->)%errorHandler_classified.
  simpl. intros H500. rewrite H500 in *. simpl. split_and!; try done.
  destruct (field error) as [f|] eqn:E; [|done].
  by destruct (Hf f eq_refl) as [[=] _].
Qed.


End MiddlewareProperties.

(** ** The further properties at sample requests *)

Lemma reachable_invariant_witness :
  let u := sampleDoc "http://a.io/x" "abc12" true 0 in
  reachable [u]
  ∧ NoDup (Url.shortCode <$> [u])
  ∧ originalUrlValidator (Url.originalUrl u) = true
  ∧ trim (Url.shortCode u) = Url.shortCode u.
Proof.
  pose (u := sampleDoc "http://a.io/x" "abc12" true 0).
  destruct (reachable_invariant [u] sample_active_reachable) as [Hn Hall].
  assert (u ∈ [u]) as Hu by constructor.
  destruct (Hall u Hu) as (Hurl & _ & Htrim & _).
  split_and!; [apply sample_active_reachable | exact Hn | exact Hurl
              | exact Htrim].
Defined.

Lemma redirect_counts_one_click_witness :
  let u := sampleDoc "http://a.io/x" "abc12" true 0 in
  let env := sampleEnv 20 "" in
  wf [u] ∧ Url.isValidForRedirect env u = true
  ∧ (Controller.redirectToUrl env (str "abc12") [u]).1
    = Controller.Redirect 301 (str "http://a.io/x")
  ∧ (∃ u', (Controller.redirectToUrl env (str "abc12") [u]).2 !! 0 = Some u'
           ∧ Url.clicks u' = 1%Z ∧ Url.updatedAt u' = 20%Z)
  ∧ length (Controller.redirectToUrl env (str "abc12") [u]).2 = 1.
Proof.
  pose (u := sampleDoc "http://a.io/x" "abc12" true 0).
  pose (env := sampleEnv 20 "").
  assert (wf [u]) as Hwf by (by apply wf_singleton).
  assert ((0 ≤ Url.clicks u)%Z) as Hc by (simpl; lia).
  destruct (redirect_counts_one_click env [u] 0 u Hwf eq_refl eq_refl Hc)
    as (H1 & (u' & Hu' & Hclicks & _ & Hupdated & _) & Hlen & _).
  split_and!; [exact Hwf | reflexivity | exact H1 | | exact Hlen].
  exists u'. split_and!; [exact Hu' | exact Hclicks | exact Hupdated].
Defined.

Lemma createShortUrl_effect_witness :
  let env := sampleEnv 20 "new01" in
  let body := sampleBody "http://b.io/y" None JUndefined in
  Controller.status (Controller.createShortUrl env body []).1 = 201%Z
  ∧ ∃ u, (Controller.createShortUrl env body []).2 = [] ++ [u]
         ∧ Url.clicks u = 0%Z ∧ Url.isActive u = true
         ∧ Url.validate u = [].
Proof.
  pose (env := sampleEnv 20 "new01").
  pose (body := sampleBody "http://b.io/y" None JUndefined).
  destruct (createShortUrl_effect env body []
              (Controller.createShortUrl env body []).1
              (Controller.createShortUrl env body []).2 eq_refl)
    as [[Hne _]|[H201 (u & Hs & _ & Hc & Ha & _ & _ & _ & Hv & _)]].
  - by destruct Hne.
  - split; [exact H201|]. exists u.
    split_and!; [exact Hs | exact Hc | exact Ha | exact Hv].
Defined.

Lemma shorten_then_resolve_witness :
  let env := sampleEnv 0 "abc12" in
  let env' := sampleEnv 20 "" in
  let body := sampleBody "http://a.io/x" (Some 1%Z) JUndefined in
  Controller.createShortUrl env body []
    = (Controller.Json 201
         (Controller.Created (str "http://localhost:4000/abc12") 60000
            (str "abc12") (str "http://a.io/x") 1),
       [sampleDoc "http://a.io/x" "abc12" true 0])
  ∧ Controller.redirectToUrl env' (str "abc12")
      [sampleDoc "http://a.io/x" "abc12" true 0]
    = (Controller.Redirect 301 (str "http://a.io/x"),
       [Url.clicked env' (sampleDoc "http://a.io/x" "abc12" true 0)]).
Proof.
  pose (env := sampleEnv 0 "abc12").
  pose (env' := sampleEnv 20 "").
  pose (body := sampleBody "http://a.io/x" (Some 1%Z) JUndefined).
  assert ((now env' ≤ 60000)%Z) as Hnow by (simpl; lia).
  split; [reflexivity|].
  exact (shorten_then_resolve env env' body [] _ 60000 (str "abc12")
           (str "http://a.io/x") 1 _ wf_nil eq_refl Hnow).
Defined.

Lemma shorten_twice_same_code_witness :
  let env1 := sampleEnv 0 "abc12" in
  let env2 := sampleEnv 20 "other" in
  let body := sampleBody "http://a.io/x" (Some 1%Z) JUndefined in
  Controller.createShortUrl env1 body []
    = (Controller.Json 201
         (Controller.Created (str "http://localhost:4000/abc12") 60000
            (str "abc12") (str "http://a.io/x") 1),
       [sampleDoc "http://a.io/x" "abc12" true 0])
  ∧ Controller.createShortUrl env2 body
      [sampleDoc "http://a.io/x" "abc12" true 0]
    = (Controller.Json 200
         (Controller.AlreadyShortened
            (Helpers.generateShortUrl env2 (trim (str "abc12"))) 60000),
       [sampleDoc "http://a.io/x" "abc12" true 0]).
Proof.
  pose (env1 := sampleEnv 0 "abc12").
  pose (env2 := sampleEnv 20 "other").
  pose (body := sampleBody "http://a.io/x" (Some 1%Z) JUndefined).
  assert ((now env2 ≤ 60000)%Z) as Hnow by (simpl; lia).
  split; [reflexivity|].
  exact (proj1 (shorten_twice_same_code env1 env2 body [] _ 60000
                  (str "abc12") (str "http://a.io/x") 1 _
                  eq_refl eq_refl eq_refl Hnow)).
Defined.

Lemma inactive_documents_stay_witness :
  let u := sampleDoc "http://a.io/x" "abc12" false 10 in
  u ∈ (serve (Remove (str "abc12")) [u]).2
  ∧ u ∈ (serve (SetActive (sampleEnv 20 "") (str "abc12") (JBool true)) [u]).2.
Proof.
  pose (u := sampleDoc "http://a.io/x" "abc12" false 10).
  assert (u ∈ [u]) as Hu by constructor.
  split.
  - exact (inactive_documents_stay (Remove (str "abc12")) [u] u Hu eq_refl).
  - exact (inactive_documents_stay
             (SetActive (sampleEnv 20 "") (str "abc12") (JBool true))
             [u] u Hu eq_refl).
Defined.

Lemma status_toggle_active_witness :
  let u := sampleDoc "http://a.io/x" "abc12" true 0 in
  let env := sampleEnv 20 "" in
  wf [u]
  ∧ (Controller.updateUrlStatus env (str "abc12") (JBool false) [u]).1
    = Controller.Json 200
        (Controller.StatusUpdated false (str "abc12") (str "http://a.io/x")
           false)
  ∧ Controller.updateUrlStatus env (str "abc12") (JNum 1) [u]
    = (Controller.Json 400 Controller.NotBoolean, [u]).
Proof.
  pose (u := sampleDoc "http://a.io/x" "abc12" true 0).
  pose (env := sampleEnv 20 "").
  assert (wf [u]) as Hwf by (by apply wf_singleton).
  destruct (status_toggle_active env [u] 0 u false Hwf eq_refl eq_refl)
    as (H1 & _ & _ & H4).
  split_and!; [exact Hwf | exact H1 | exact (H4 (JNum 1) eq_refl)].
Defined.

Lemma delete_twice_witness :
  let u := sampleDoc "http://a.io/x" "abc12" true 0 in
  wf [u]
  ∧ Controller.status (Controller.deleteUrl (str "abc12") [u]).1 = 200%Z
  ∧ Controller.deleteUrl (str "abc12")
      (Controller.deleteUrl (str "abc12") [u]).2
    = (Controller.Json 404 (Controller.NotFound (str "abc12")),
       (Controller.deleteUrl (str "abc12") [u]).2).
Proof.
  pose (u := sampleDoc "http://a.io/x" "abc12" true 0).
  assert (wf [u]) as Hwf by (by apply wf_singleton).
  split_and!; [exact Hwf | reflexivity |].
  exact (proj1 (delete_twice [u] (str "abc12") Hwf)).
Defined.

Lemma deleted_code_reusable_witness :
  let u := sampleDoc "http://a.io/x" "abc12" true 0 in
  let env := sampleEnv 20 "" in
  let body := sampleBody "http://b.io/y" None (JStr (str "abc12")) in
  wf [u]
  ∧ Controller.status (Controller.deleteUrl (str "abc12") [u]).1 = 200%Z
  ∧ Controller.status
      (Controller.createShortUrl env body
         (Controller.deleteUrl (str "abc12") [u]).2).1 = 201%Z.
Proof.
  pose (u := sampleDoc "http://a.io/x" "abc12" true 0).
  pose (env := sampleEnv 20 "").
  pose (body := sampleBody "http://b.io/y" None (JStr (str "abc12"))).
  assert (wf [u]) as Hwf by (by apply wf_singleton).
  split_and!; [exact Hwf | reflexivity |].
  exact (f_equal (fun p => Controller.status p.1)
           (deleted_code_reusable env body [u] (str "abc12") Hwf
              eq_refl eq_refl eq_refl eq_refl eq_refl)).
Defined.

Lemma stats_fields_witness :
  let u := sampleDoc "http://a.io/x" "abc12" true 0 in
  let env := sampleEnv 20 "" in
  ∃ fields,
    Controller.getUrlStats env (str "abc12") [u]
      = Controller.Json 200 (Controller.Stats fields)
    ∧ Controller.st_isActive fields = true
    ∧ Controller.st_isExpired fields = false
    ∧ Controller.st_timeRemaining fields
      = (Controller.st_expiry fields - 20)%Z.
Proof.
  pose (u := sampleDoc "http://a.io/x" "abc12" true 0).
  pose (env := sampleEnv 20 "").
  eexists. split; [reflexivity|].
  destruct (stats_fields env (str "abc12") [u] _ eq_refl)
    as (Ha & _ & _ & _ & _ & Hr).
  split_and!; [exact Ha | reflexivity | exact (Hr eq_refl)].
Defined.

Lemma listing_page_witness :
  let u := sampleDoc "http://a.io/x" "abc12" true 0 in
  let env := sampleEnv 20 "" in
  ∃ urls pages,
    Controller.getAllUrls env Controller.defaultListQuery [u]
      = Controller.Json 200 (Controller.Listing urls pages)
    ∧ (∀ v, v ∈ urls → v ∈ [u] ∧ (20 < Url.expiry v)%Z)
    ∧ (Z.of_nat (length urls) ≤ Controller.totalItems pages)%Z
    ∧ (Controller.totalItems pages ≤ 1)%Z.
Proof.
  pose (u := sampleDoc "http://a.io/x" "abc12" true 0).
  pose (env := sampleEnv 20 "").
  eexists _, _. split; [reflexivity|].
  destruct (listing_page env Controller.defaultListQuery [u] _ _ eq_refl)
    as (He & _ & Hn & Ht).
  split_and!; [|exact Hn | exact Ht].
  intros v Hv. destruct (He v Hv) as (Hs & _ & Hx).
  split; [exact Hs | exact (Hx eq_refl)].
Defined.

Lemma listing_sorted_witness :
  let old := sampleDoc "http://a.io/x" "abc12" true 0 in
  let new := Url.create (sampleEnv 10 "") (str "http://b.io/y") (str "new01")
               30 1800010 in
  let env := sampleEnv 20 "" in
  ∃ urls pages,
    Controller.getAllUrls env Controller.defaultListQuery [old; new]
      = Controller.Json 200 (Controller.Listing urls pages)
    ∧ urls = [new; old]
    ∧ Sorted (inOrder (str "desc") Url.createdAt) urls.
Proof.
  pose (old := sampleDoc "http://a.io/x" "abc12" true 0).
  pose (new := Url.create (sampleEnv 10 "") (str "http://b.io/y")
                 (str "new01") 30 1800010).
  pose (env := sampleEnv 20 "").
  exists [new; old]. eexists. split; [reflexivity|]. split; [reflexivity|].
  exact (proj1 (listing_sorted env Controller.defaultListQuery [old; new]
                  [new; old] _ eq_refl) eq_refl).
Defined.

Lemma generateFallbackShortCode_shape_witness :
  Helpers.generateFallbackShortCode (fun k => Nat.min k 61) 5 = str "ABCDE"
  ∧ Helpers.isValidShortCode
      (JStr (Helpers.generateFallbackShortCode (fun k => Nat.min k 61) 5))
    = true.
Proof.
  assert (∀ k, Nat.min k 61 < 62) as Hr by (intros k; lia).
  assert (3 ≤ 5 ≤ 20) as Hn by lia.
  split; [reflexivity|].
  exact (proj1 (proj2 (proj2
    (generateFallbackShortCode_shape (fun k => Nat.min k 61) 5 Hr)) Hn)).
Defined.

Lemma errorHandler_reply_witness :
  let err := sampleError "MongoServerError" "E11000 duplicate key error"
               JUndefined (JNum 11000) (Some [str "shortCode"]) in
  ∃ r, Middleware.errorHandler (Some (str "development")) err = Some r
       ∧ Middleware.r_status r = JNum 409
       ∧ truthy (Middleware.b_error (Middleware.r_body r)) = true
       ∧ is_Some (Middleware.b_stack (Middleware.r_body r)).
Proof.
  pose (err := sampleError "MongoServerError" "E11000 duplicate key error"
                 JUndefined (JNum 11000) (Some [str "shortCode"])).
  eexists. split; [reflexivity|].
  destruct (errorHandler_reply (Some (str "development")) err _ eq_refl)
    as (_ & Hm & _ & _ & Hst).
  split_and!; [reflexivity | exact Hm | exact (proj2 Hst eq_refl)].
Defined.

Lemma errorHandler_production_witness :
  let err := sampleError "Error" "connect ECONNREFUSED 127.0.0.1:27017"
               JUndefined JUndefined None in
  ∃ r, Middleware.errorHandler (Some (str "production")) err = Some r
       ∧ Middleware.r_status r = JNum 500
       ∧ Middleware.b_error (Middleware.r_body r)
         = JStr (str "Internal Server Error").
Proof.
  pose (err := sampleError "Error" "connect ECONNREFUSED 127.0.0.1:27017"
                 JUndefined JUndefined None).
  eexists. split; [reflexivity|]. split; [reflexivity|].
  exact (proj1 (errorHandler_production err _ eq_refl eq_refl)).
Defined.

